(** * fix_notebook_widgets: repairing the [widgets] metadata of notebooks

    A shallow embedding of [fix_notebook_widgets.py]:
    - the parsed notebook (the value returned by [json.loads]) as a tree
      of JSON values, with Python's [dict] as an insertion-ordered
      association list;
    - [fix_widgets_metadata] as a function from the tree to the mutated
      tree and either the returned flag or the exception raised;
    - [process_notebooks] in a state-and-exception monad over a world
      made of a file system and the standard output. *)

From Stdlib Require Import ZArith String Ascii List Bool Lia.
From Stdlib Require Import Floats.PrimFloat.
From stdpp Require Import base option list strings gmap.

Import ListNotations.
Local Open Scope string_scope.
Set Warnings "-register-all,-clear-no-such-hyp".

(** ** Python values produced by [json.loads] *)

(** [json.loads] builds a fresh container for every JSON array and
    object, so a parsed notebook is a tree: no container is reachable
    along two paths.  Mutating a nested container in place is therefore
    rendered by rebuilding the spine above it.  A [str] is kept as the
    Rocq string of its UTF-8 bytes. *)
Inductive json : Type :=
| JNull                                   (* None *)
| JBool (b : bool)                        (* True / False *)
| JInt (z : Z)                            (* int *)
| JFloat (f : float)                      (* float *)
| JStr (s : string)                       (* str *)
| JList (l : list json)                   (* list *)
| JDict (d : list (string * json)).       (* dict, in insertion order *)

(** The entries of a [dict], oldest first.  A dict holds a key once; the
    operations below read and update the first entry of a key, and keep
    the keys distinct when they are. *)
Abbreviation entries := (list (string * json)).

(** [type(v).__name__], as it appears in the messages of the exceptions. *)
Definition type_name (v : json) : string :=
  match v with
  | JNull => "NoneType"
  | JBool _ => "bool"
  | JInt _ => "int"
  | JFloat _ => "float"
  | JStr _ => "str"
  | JList _ => "list"
  | JDict _ => "dict"
  end.

(** ** Exceptions and results *)

(** An exception: its class and [str(exc)]. *)
Inductive exn : Type := Exn (cls : string) (msg : string).

Definition exn_str (e : exn) : string := let 'Exn _ msg := e in msg.

Inductive result (A : Type) : Type :=
| Ok (a : A)
| Raise (e : exn).
Arguments Ok {A} a.
Arguments Raise {A} e.

Definition is_ok {A} (r : result A) : bool :=
  match r with Ok _ => true | Raise _ => false end.

(** [obj.attr] on an object whose type has no such attribute. *)
Definition AttributeError (obj : json) (attr : string) : exn :=
  Exn "AttributeError"
      ("'" ++ type_name obj ++ "' object has no attribute '" ++ attr ++ "'").

(** [iter(obj)] on an object that is not iterable. *)
Definition TypeError_not_iterable (obj : json) : exn :=
  Exn "TypeError" ("'" ++ type_name obj ++ "' object is not iterable").

(** The two classes above. *)
Definition is_shape_error (e : exn) : bool :=
  let 'Exn cls _ := e in
  (String.eqb cls "AttributeError" || String.eqb cls "TypeError")%bool.

(** ** Operations of [dict] *)

Module Dict.

(** [d.get(key)]: [None] stands for an absent key. *)
Fixpoint get (key : string) (d : entries) : option json :=
  match d with
  | [] => None
  | (k, v) :: d' => if String.eqb k key then Some v else get key d'
  end.

(** [key in d]. *)
Definition mem (key : string) (d : entries) : bool :=
  match get key d with Some _ => true | None => false end.

(** [del d[key]]: the entry leaves the dict, the others keep their
    order.  (The source deletes only a key it has just read.) *)
Fixpoint del (key : string) (d : entries) : entries :=
  match d with
  | [] => []
  | (k, v) :: d' =>
      if String.eqb k key then del key d' else (k, v) :: del key d'
  end.

(** [d[key] = v]: an existing key keeps its place, a new one goes last. *)
Fixpoint setitem (key : string) (v : json) (d : entries) : entries :=
  match d with
  | [] => [(key, v)]
  | (k, v0) :: d' =>
      if String.eqb k key then (k, v) :: d'
      else (k, v0) :: setitem key v d'
  end.

(** The object read with [d.get(key, default)] has been mutated in
    place and is now [v]: the entry under [key] shows the new state.
    When [key] is absent the mutated object was the fresh [default],
    which [d] does not reference, and [d] is as before. *)
Fixpoint store (key : string) (v : json) (d : entries) : entries :=
  match d with
  | [] => []
  | (k, v0) :: d' =>
      if String.eqb k key then (k, v) :: d'
      else (k, v0) :: store key v d'
  end.

End Dict.

(** [for x in obj]: the items a [for] loop visits.  A list yields its
    elements, a dict its keys, a str its characters (here: the bytes of
    its encoding, each as a one-character str); the other JSON values are
    not iterable. *)
Definition py_iter (obj : json) : result (list json) :=
  match obj with
  | JList l => Ok l
  | JDict d => Ok (map (fun e => JStr (fst e)) d)
  | JStr s => Ok (map (fun c => JStr (String c EmptyString)) (list_ascii_of_string s))
  | _ => Raise (TypeError_not_iterable obj)
  end.

(** ** The Metadata Fixer: [fix_widgets_metadata] *)

(** The body shared by lines 48-58 (with [holder] the notebook) and lines
    62-70 (with [holder] a cell): read [holder.get("metadata", {})], then
    its ["widgets"], and delete or complete that entry.  Returns the
    holder after the in-place mutations and whether [changed] was set. *)
Definition fix_location (remove_widgets : bool) (holder : json)
  : json * result bool :=
  match holder with
  | JDict h =>
      (* meta = holder.get("metadata", {}) *)
      let meta := default (JDict []) (Dict.get "metadata" h) in
      match meta with
      | JDict m =>
          (* widgets = meta.get("widgets") *)
          match Dict.get "widgets" m with
          | None | Some JNull => (holder, Ok false)
          | Some widgets =>
              if remove_widgets then
                (* del meta["widgets"] *)
                (JDict (Dict.store "metadata" (JDict (Dict.del "widgets" m)) h),
                 Ok true)
              else
                match widgets with
                | JDict w =>
                    if Dict.mem "state" w then (holder, Ok false)
                    else
                      (* widgets["state"] = {} *)
                      let w' := Dict.setitem "state" (JDict []) w in
                      let m' := Dict.store "widgets" (JDict w') m in
                      (JDict (Dict.store "metadata" (JDict m') h), Ok true)
                | _ => (holder, Ok false)
                end
          end
      | _ => (holder, Raise (AttributeError meta "get"))
      end
  | _ => (holder, Raise (AttributeError holder "get"))
  end.

(** The loop of lines 61-70 over the items still to visit; [changed] is
    the flag on entry.  An exception leaves the loop at once: the items
    already visited keep their mutations, the others are as they were. *)
Fixpoint fix_cells (remove_widgets : bool) (cells : list json) (changed : bool)
  : list json * result bool :=
  match cells with
  | [] => ([], Ok changed)
  | cell :: rest =>
      match fix_location remove_widgets cell with
      | (cell', Raise e) => (cell' :: rest, Raise e)
      | (cell', Ok c) =>
          let '(rest', r) := fix_cells remove_widgets rest (changed || c) in
          (cell' :: rest', r)
      end
  end.

(** The items of a list are the objects the list holds, so the list
    shows their mutations; the items of a dict or of a str are
    temporaries. *)
Definition after_loop (cells : json) (items' : list json) : json :=
  match cells with
  | JList _ => JList items'
  | _ => cells
  end.

Definition fix_widgets_metadata (remove_widgets : bool) (nb_data : json)
  : json * result bool :=
  match fix_location remove_widgets nb_data with
  | (nb1, Raise e) => (nb1, Raise e)
  | (nb1, Ok changed) =>
      match nb1 with
      | JDict d =>
          (* for cell in nb_data.get("cells", []) *)
          let cells := default (JList []) (Dict.get "cells" d) in
          match py_iter cells with
          | Raise e => (nb1, Raise e)
          | Ok items =>
              let '(items', r) := fix_cells remove_widgets items changed in
              (JDict (Dict.store "cells" (after_loop cells items') d), r)
          end
      | _ => (nb1, Raise (AttributeError nb1 "get"))
      end
  end.

(** * The Batch Processor *)

(** ** Strings and paths *)

(** [s[n:]] and [s[:n]]. *)
Fixpoint str_drop (n : nat) (s : string) : string :=
  match n, s with
  | S n', String _ s' => str_drop n' s'
  | _, _ => s
  end.

Fixpoint str_take (n : nat) (s : string) : string :=
  match n, s with
  | S n', String c s' => String c (str_take n' s')
  | _, _ => EmptyString
  end.

(** [c in s]. *)
Fixpoint str_mem (c : ascii) (s : string) : bool :=
  match s with
  | EmptyString => false
  | String a s' => Ascii.eqb a c || str_mem c s'
  end.

(** [s.startswith(c)]. *)
Definition starts_with (c : ascii) (s : string) : bool :=
  match s with
  | String a _ => Ascii.eqb a c
  | EmptyString => false
  end.

(** [s.rfind('.')]: the index of the last dot, or -1. *)
Fixpoint rfind_dot (s : string) : Z :=
  match s with
  | EmptyString => (-1)%Z
  | String c s' =>
      let i := rfind_dot s' in
      if (0 <=? i)%Z then (i + 1)%Z
      else if Ascii.eqb c "." then 0%Z else (-1)%Z
  end.

(** A [pathlib.Path]: the anchor (["/"] or nothing), the directories and
    the final component. *)
Record Path : Type := mkPath {
  anchor : string;
  dirs : list string;
  name : string
}.

#[global] Instance Path_eq_dec : EqDecision Path.
Proof. solve_decision. Defined.

#[global] Instance Path_countable : Countable Path :=
  inj_countable' (fun p => (anchor p, dirs p, name p))
                 (fun t => mkPath t.1.1 t.1.2 t.2)
                 (fun p => match p with mkPath _ _ _ => eq_refl end).

(** [str(path)]. *)
Definition path_str (p : Path) : string :=
  anchor p ++ fold_right (fun d s => d ++ "/" ++ s) (name p) (dirs p).

(** [path.suffix]: the final component from its last dot on, when that
    dot is neither its first nor its last character. *)
Definition suffix (p : Path) : string :=
  let i := rfind_dot (name p) in
  if ((0 <? i)%Z && (i <? Z.of_nat (String.length (name p)) - 1)%Z)%bool
  then str_drop (Z.to_nat i) (name p)
  else "".

Definition ValueError (msg : string) : exn := Exn "ValueError" msg.

(** [path.with_suffix(sfx)]: a suffix holding a separator, a suffix
    that does not start with a dot, the suffix ["."] and a path without
    a name are refused; otherwise [sfx] takes the place of the suffix of
    the name, or follows the name when it has none. *)
Definition with_suffix (p : Path) (sfx : string) : result Path :=
  if str_mem "/" sfx then Raise (ValueError ("Invalid suffix '" ++ sfx ++ "'"))
  else if (negb (String.eqb sfx "") && negb (starts_with "." sfx)
           || String.eqb sfx ".")%bool
       then Raise (ValueError ("Invalid suffix '" ++ sfx ++ "'"))
  else if String.eqb (name p) ""
       then Raise (ValueError ("PosixPath('" ++ path_str p
                               ++ "') has an empty name"))
  else
    let old_suffix := suffix p in
    let name' :=
      if String.eqb old_suffix "" then name p ++ sfx
      else str_take (String.length (name p) - String.length old_suffix) (name p)
           ++ sfx in
    Ok (mkPath (anchor p) (dirs p) name').

(** ** The world: files and standard output *)

(** The regular files, by path, with their bytes; and the lines printed
    so far.  Directories, permissions and the other ways a system call
    can fail are not part of the model. *)
Record World : Type := mkWorld {
  files : gmap Path string;
  stdout : list string
}.

(** A computation that reads and writes the world and may raise. *)
Definition IO (A : Type) : Type := World -> World * result A.

#[global] Instance IO_ret : MRet IO := fun A a w => (w, Ok a).

#[global] Instance IO_bind : MBind IO := fun A B f m w =>
  match m w with
  | (w', Ok a) => f a w'
  | (w', Raise e) => (w', Raise e)
  end.

(** A pure computation that may raise. *)
Definition lift {A} (r : result A) : IO A := fun w => (w, r).

(** [try: body except Exception as exc: handler(exc)].  What reading,
    decoding and parsing raise (OSError, UnicodeDecodeError,
    JSONDecodeError, RecursionError) derives from [Exception]. *)
Definition try_except {A} (body : IO A) (handler : exn -> IO A) : IO A :=
  fun w =>
    match body w with
    | (w', Raise exc) => handler exc w'
    | done => done
    end.

(** The library functions the script calls: the UTF-8 codec and the
    [json] module.  [dumps indent v] is [json.dumps(v, indent=indent)]. *)
Class PyLib : Type := {
  decode_utf8 : string -> result string;
  encode_utf8 : string -> string;
  loads : string -> result json;
  dumps : nat -> json -> result string
}.

Definition FileNotFoundError (p : Path) : exn :=
  Exn "FileNotFoundError"
      ("[Errno 2] No such file or directory: '" ++ path_str p ++ "'").

(** [path.read_text(encoding="utf-8")]. *)
Definition read_text `{PyLib} (p : Path) : IO string := fun w =>
  match files w !! p with
  | None => (w, Raise (FileNotFoundError p))
  | Some bytes => (w, decode_utf8 bytes)
  end.

(** [path.replace(target)]: the file moves to [target], replacing
    whatever file was there, in one step. *)
Definition replace (p target : Path) : IO unit := fun w =>
  match files w !! p with
  | None => (w, Raise (FileNotFoundError p))
  | Some bytes =>
      (mkWorld (<[target := bytes]> (delete p (files w))) (stdout w), Ok tt)
  end.

(** [path.write_text(text, encoding="utf-8")]. *)
Definition write_text `{PyLib} (p : Path) (text : string) : IO unit := fun w =>
  (mkWorld (<[p := encode_utf8 text]> (files w)) (stdout w), Ok tt).

(** [print(line)]. *)
Definition print (line : string) : IO unit := fun w =>
  (mkWorld (files w) (stdout w ++ [line]), Ok tt).

(** ** [process_notebooks] *)

(** Lines 79-80, the body of the [try]. *)
Definition read_notebook `{PyLib} (nb_path : Path) : IO json :=
  text ← read_text nb_path;
  lift (loads text).

(** Line 84: the call mutates [nb_data]; the mutated tree and the flag
    go on, an exception propagates. *)
Definition call_fix (remove_widgets : bool) (nb_data : json)
  : IO (json * bool) :=
  match fix_widgets_metadata remove_widgets nb_data with
  | (nb_data', Ok changed) => lift (Ok (nb_data', changed))
  | (_, Raise e) => lift (Raise e)
  end.

(** Lines 86-90. *)
Definition backup_and_write `{PyLib} (nb_path : Path) (nb_data : json)
  : IO unit :=
  backup_path ← lift (with_suffix nb_path (suffix nb_path ++ ".bak"));
  replace nb_path backup_path;;
  text ← lift (dumps 2 nb_data);
  write_text nb_path text;;
  print ("Fixed widgets metadata in " ++ path_str nb_path
         ++ ", backup saved to " ++ path_str backup_path).

(** The body of the loop, lines 76-90. *)
Definition process_notebook `{PyLib} (remove_widgets : bool) (nb_path : Path)
  : IO unit :=
  if negb (String.eqb (suffix nb_path) ".ipynb") then mret tt
  else
    parsed ← try_except
      (nb_data ← read_notebook nb_path; mret (Some nb_data))
      (fun exc =>
         print ("Error reading " ++ path_str nb_path ++ ": " ++ exn_str exc);;
         mret None);
    match parsed with
    | None => mret tt
    | Some nb_data =>
        '(nb_data', changed) ← call_fix remove_widgets nb_data;
        if changed : bool then backup_and_write nb_path nb_data'
        else mret tt
    end.

Fixpoint process_notebooks `{PyLib} (paths : list Path) (remove_widgets : bool)
  : IO unit :=
  match paths with
  | [] => mret tt
  | nb_path :: rest =>
      process_notebook remove_widgets nb_path;;
      process_notebooks rest remove_widgets
  end.

(** * The driver: [iterate_notebooks] and [main] *)

(** The questions the script asks the file system about directories:
    [path.is_dir()], [path.glob(pattern)] and [path.rglob(pattern)],
    answered from the files there are. *)
Class PyFS : Type := {
  is_dir : gmap Path string -> Path -> bool;
  glob : gmap Path string -> Path -> string -> list Path;
  rglob : gmap Path string -> Path -> string -> list Path
}.

(** [path.is_file()]. *)
Definition is_file (fs : gmap Path string) (p : Path) : bool :=
  bool_decide (is_Some (fs !! p)).

(** Lines 93-97; [main] takes the whole listing at once, with [list]. *)
Definition iterate_notebooks `{PyFS} (base_dir : Path) (recursive : bool)
  : IO (list Path) := fun w =>
  (w, Ok (if recursive then rglob (files w) base_dir "*.ipynb"
          else glob (files w) base_dir "*.ipynb")).

(** The namespace [parser.parse_args()] returns, each of [args.paths]
    already made a [Path]. *)
Record Args : Type := mkArgs {
  args_paths : list Path;
  args_recursive : bool;
  args_remove_widgets : bool
}.

(** The body of the loop of [main], lines 121-130. *)
Definition main_path `{PyLib} `{PyFS} (recursive remove_widgets : bool)
    (p : Path) : IO unit := fun w =>
  if is_file (files w) p then process_notebooks [p] remove_widgets w
  else if is_dir (files w) p then
    (notebooks ← iterate_notebooks p recursive;
     (match notebooks with
      | [] => print ("No notebooks found in directory " ++ path_str p)
      | _ => mret tt
      end);;
     process_notebooks notebooks remove_widgets) w
  else print ("Path not found: " ++ path_str p) w.

(** The loop of [main], lines 120-130. *)
Fixpoint main_loop `{PyLib} `{PyFS} (paths : list Path)
    (recursive remove_widgets : bool) : IO unit :=
  match paths with
  | [] => mret tt
  | p :: rest =>
      main_path recursive remove_widgets p;;
      main_loop rest recursive remove_widgets
  end.

Definition main `{PyLib} `{PyFS} (args : Args) : IO unit :=
  main_loop (args_paths args) (args_recursive args) (args_remove_widgets args).

(** * The vocabulary of the properties *)

(** ** Reading a tree *)

(** One step down the tree: into a dict by key, into a list by index. *)
Inductive step : Type :=
| Key (k : string)
| Idx (i : nat).

Definition child (s : step) (v : json) : option json :=
  match s, v with
  | Key k, JDict d => Dict.get k d
  | Idx i, JList l => l !! i
  | _, _ => None
  end.

Fixpoint lookup_path (p : list step) (v : json) : option json :=
  match p with
  | [] => Some v
  | s :: p' =>
      match child s v with
      | Some v' => lookup_path p' v'
      | None => None
      end
  end.

(** The two kinds of place where a metadata mapping is looked for. *)
Inductive location : Type :=
| DocLevel
| CellLevel (i : nat).

(** The path from the notebook to the holder of the metadata. *)
Definition holder_path (loc : location) : list step :=
  match loc with
  | DocLevel => []
  | CellLevel i => [Key "cells"; Idx i]
  end.

Definition metadata_at (loc : location) (doc : json) : option json :=
  lookup_path (holder_path loc ++ [Key "metadata"]) doc.

Definition widgets_at (loc : location) (doc : json) : option json :=
  lookup_path (holder_path loc ++ [Key "metadata"; Key "widgets"]) doc.

Definition holder_at (loc : location) (doc : json) : option json :=
  lookup_path (holder_path loc) doc.

(** The metadata and the widgets entry of a holder. *)
Definition meta_of (holder : json) : option json :=
  lookup_path [Key "metadata"] holder.

Definition widgets_of (holder : json) : option json :=
  lookup_path [Key "metadata"; Key "widgets"] holder.

(** The value the loop iterates over. *)
Definition cells_of (d : entries) : json :=
  default (JList []) (Dict.get "cells" d).

(** ** Shapes *)

(** A holder that [fix_location] accepts: a dict whose ["metadata"], when
    present, is a dict. *)
Definition meta_ok (holder : json) : bool :=
  match holder with
  | JDict h =>
      match Dict.get "metadata" h with
      | None | Some (JDict _) => true
      | Some _ => false
      end
  | _ => false
  end.

(** A document as the data model describes it: a mapping, whose metadata
    (when present) is a mapping, and whose cells (when present) can be
    iterated and are such mappings themselves. *)
Definition well_shaped (doc : json) : bool :=
  meta_ok doc &&
  match doc with
  | JDict d =>
      match py_iter (default (JList []) (Dict.get "cells" d)) with
      | Ok items => forallb meta_ok items
      | Raise _ => false
      end
  | _ => false
  end.

Definition is_dict (v : json) : bool :=
  match v with JDict _ => true | _ => false end.

Definition is_null (v : json) : bool :=
  match v with JNull => true | _ => false end.

Definition is_container (v : json) : bool :=
  match v with JList _ | JDict _ => true | _ => false end.

(** Whether [fix_location] sets [changed] on this holder. *)
Definition changes (remove_widgets : bool) (holder : json) : bool :=
  match snd (fix_location remove_widgets holder) with
  | Ok c => c
  | Raise _ => false
  end.

(** ** The runs of [fix_location] and of the loop *)

(** The empty ["state"] appended to a widgets mapping. *)
Definition with_state (w : entries) : entries := (w ++ [("state", JDict [])])%list.

(** Every run of [fix_location] is one of nine cases: two raise, five
    leave the holder alone, one deletes, one inserts. *)
Inductive location_case (rm : bool) : json -> json * result bool -> Prop :=
| case_holder_not_dict h
    (Hholder : is_dict h = false) :
    location_case rm h (h, Raise (AttributeError h "get"))
| case_meta_not_dict hd meta
    (Hmeta : Dict.get "metadata" hd = Some meta)
    (Hshape : is_dict meta = false) :
    location_case rm (JDict hd) (JDict hd, Raise (AttributeError meta "get"))
| case_no_metadata hd
    (Hmeta : Dict.get "metadata" hd = None) :
    location_case rm (JDict hd) (JDict hd, Ok false)
| case_no_widgets hd m
    (Hmeta : Dict.get "metadata" hd = Some (JDict m))
    (Hw : Dict.get "widgets" m = None) :
    location_case rm (JDict hd) (JDict hd, Ok false)
| case_null_widgets hd m
    (Hmeta : Dict.get "metadata" hd = Some (JDict m))
    (Hw : Dict.get "widgets" m = Some JNull) :
    location_case rm (JDict hd) (JDict hd, Ok false)
| case_removed hd m w
    (Hmode : rm = true)
    (Hmeta : Dict.get "metadata" hd = Some (JDict m))
    (Hw : Dict.get "widgets" m = Some w)
    (Hnull : is_null w = false) :
    location_case rm (JDict hd)
      (JDict (Dict.store "metadata" (JDict (Dict.del "widgets" m)) hd), Ok true)
| case_not_mapping hd m w
    (Hmode : rm = false)
    (Hmeta : Dict.get "metadata" hd = Some (JDict m))
    (Hw : Dict.get "widgets" m = Some w)
    (Hnull : is_null w = false)
    (Hshape : is_dict w = false) :
    location_case rm (JDict hd) (JDict hd, Ok false)
| case_has_state hd m w
    (Hmode : rm = false)
    (Hmeta : Dict.get "metadata" hd = Some (JDict m))
    (Hw : Dict.get "widgets" m = Some (JDict w))
    (Hstate : Dict.mem "state" w = true) :
    location_case rm (JDict hd) (JDict hd, Ok false)
| case_inserted hd m w
    (Hmode : rm = false)
    (Hmeta : Dict.get "metadata" hd = Some (JDict m))
    (Hw : Dict.get "widgets" m = Some (JDict w))
    (Hstate : Dict.mem "state" w = false) :
    location_case rm (JDict hd)
      (JDict (Dict.store "metadata"
                (JDict (Dict.store "widgets" (JDict (with_state w)) m)) hd),
       Ok true).

(** Each cell after the loop is the cell as it was or as [fix_location]
    left it. *)
Definition visited (rm : bool) (l l' : list json) : Prop :=
  Forall2 (fun c c' => c' = fst (fix_location rm c) \/ c' = c) l l'.

(** ** Trees that only grow *)

(** [grows u v v']: the tree [v'] is the tree [v] in which some mappings
    stored under a ["widgets"] key, and without a ["state"] key, have
    received ["state"] mapped to the empty mapping as their last entry.
    Nothing else differs: lists have the same length, mappings the same
    keys in the same order, scalars are equal.  [u] tells whether [v]
    itself is stored under a ["widgets"] key. *)
Inductive grows : bool -> json -> json -> Prop :=
| grows_same u v :
    grows u v v
| grows_state w :
    Dict.mem "state" w = false ->
    grows true (JDict w) (JDict (w ++ [("state", JDict [])])%list)
| grows_list u l l' :
    Forall2 (grows false) l l' ->
    grows u (JList l) (JList l')
| grows_dict u d d' :
    Forall2 (fun e e' =>
               fst e = fst e'
               /\ grows (String.eqb (fst e) "widgets") (snd e) (snd e')) d d' ->
    grows u (JDict d) (JDict d').

(** The relation between the entries of two mappings in [grows_dict]. *)
Definition entry_grows (e e' : string * json) : Prop :=
  fst e = fst e' /\ grows (String.eqb (fst e) "widgets") (snd e) (snd e').

(** ** Trees that only shrink *)

(** [prunes u v v']: the tree [v'] is the tree [v] in which some mappings
    stored under a ["metadata"] key have lost their ["widgets"] entry.
    Nothing else differs: lists have the same length, the other entries
    of every mapping are there in the same order, scalars are equal.
    [u] tells whether [v] itself is stored under a ["metadata"] key. *)
Inductive prunes : bool -> json -> json -> Prop :=
| prunes_same u v :
    prunes u v v
| prunes_widgets m :
    prunes true (JDict m) (JDict (Dict.del "widgets" m))
| prunes_list u l l' :
    Forall2 (prunes false) l l' ->
    prunes u (JList l) (JList l')
| prunes_dict u d d' :
    Forall2 (fun e e' =>
               fst e = fst e'
               /\ prunes (String.eqb (fst e) "metadata") (snd e) (snd e')) d d' ->
    prunes u (JDict d) (JDict d').

(** The relation between the entries of two mappings in [prunes_dict]. *)
Definition entry_prunes (e e' : string * json) : Prop :=
  fst e = fst e' /\ prunes (String.eqb (fst e) "metadata") (snd e) (snd e').

(** Whether a path goes through a ["widgets"] key. *)
Definition through_widgets (p : list step) : bool :=
  existsb (fun s => match s with
                    | Key k => String.eqb k "widgets"
                    | Idx _ => false
                    end) p.

(** ** Outcomes of the Metadata Fixer *)

(** What removal mode achieves on [doc]: the run returns, every widgets
    key bound to something else than null is gone from its metadata
    mapping, a widgets key bound to null stays, and the flag tells
    whether a key was deleted. *)
Definition removal_outcome (doc : json) : Prop :=
  exists doc' changed,
    fix_widgets_metadata true doc = (doc', Ok changed)
    /\ (forall loc w,
          widgets_at loc doc = Some w -> is_null w = false ->
          widgets_at loc doc' = None
          /\ exists m, metadata_at loc doc = Some (JDict m)
                       /\ metadata_at loc doc'
                          = Some (JDict (Dict.del "widgets" m)))
    /\ (forall loc,
          widgets_at loc doc = Some JNull -> widgets_at loc doc' = Some JNull)
    /\ (changed = true <->
        exists loc w, widgets_at loc doc = Some w /\ is_null w = false).

(** What a run on a well-shaped tree gives: a flag, and in insert mode
    a metadata mapping whose widgets entry is not a mapping is left as
    it is. *)
Definition returns_normally (rm : bool) (doc : json) : Prop :=
  exists doc' changed,
    fix_widgets_metadata rm doc = (doc', Ok changed)
    /\ (rm = false ->
        forall loc w,
          widgets_at loc doc = Some w -> is_dict w = false ->
          metadata_at loc doc' = metadata_at loc doc).

(** What insert mode does when the document-level widgets entry is the
    mapping [w]. *)
Definition insert_outcome (doc : json) (w : entries) : Prop :=
  exists doc' changed,
    fix_widgets_metadata false doc = (doc', Ok changed)
    /\ (Dict.mem "state" w = false ->
        changed = true
        /\ widgets_at DocLevel doc'
           = Some (JDict (w ++ [("state", JDict [])])%list))
    /\ (Dict.mem "state" w = true ->
        widgets_at DocLevel doc' = Some (JDict w)
        /\ ((forall i wc, widgets_at (CellLevel i) doc = Some (JDict wc) ->
                          Dict.mem "state" wc = true) ->
            changed = false /\ doc' = doc)).

(** ** The worlds a notebook is taken through *)

(** The backup path of a notebook: the same place, the name followed by
    [.bak]. *)
Definition backup_of (p : Path) : Path :=
  mkPath (anchor p) (dirs p) (name p ++ ".bak").

(** The line printed for a notebook that cannot be read or parsed. *)
Definition error_line (p : Path) (exc : exn) : string :=
  "Error reading " ++ path_str p ++ ": " ++ exn_str exc.

(** The line printed for a notebook that has been fixed. *)
Definition fixed_line (p : Path) : string :=
  "Fixed widgets metadata in " ++ path_str p
  ++ ", backup saved to " ++ path_str (backup_of p).

(** The world with one more line printed, the files as they are. *)
Definition printed (line : string) (w : World) : World :=
  mkWorld (files w) (stdout w ++ [line]).

(** The world once the notebook [p], of bytes [original], has been
    moved to its backup path: nothing is at [p]. *)
Definition renamed (p : Path) (original : string) (w : World) : World :=
  mkWorld (<[backup_of p := original]> (delete p (files w))) (stdout w).

(** The world once [bytes] have been written at [p]. *)
Definition written (p : Path) (bytes : string) (w : World) : World :=
  mkWorld (<[p := bytes]> (files w)) (stdout w).

(** What the batch processor does with a changed notebook [p] of bytes
    [original], whose mutated tree is [nb_data']: the move, then the
    serialization, then the write. *)
Definition backup_then_write `{PyLib}
    (rm : bool) (p : Path) (rest : list Path) (w : World)
    (original : string) (nb_data' : json) : Prop :=
  with_suffix p (suffix p ++ ".bak") = Ok (backup_of p)
  /\ name (backup_of p) = name p ++ ".bak"
  /\ replace p (backup_of p) w = (renamed p original w, Ok tt)
  /\ files (renamed p original w) !! backup_of p = Some original
  /\ files (renamed p original w) !! p = None
  /\ match dumps 2 nb_data' with
     | Raise e => process_notebook rm p w = (renamed p original w, Raise e)
     | Ok text =>
         process_notebook rm p w
         = (printed (fixed_line p)
              (written p (encode_utf8 text) (renamed p original w)), Ok tt)
         /\ files (written p (encode_utf8 text) (renamed p original w))
              !! backup_of p = Some original
         /\ files (written p (encode_utf8 text) (renamed p original w)) !! p
            = Some (encode_utf8 text)
         /\ process_notebooks (p :: rest) rm w
            = process_notebooks rest rm
                (printed (fixed_line p)
                   (written p (encode_utf8 text) (renamed p original w)))
     end.

(** ** The outcomes of one notebook and of one argument *)

(** What [process_notebook] does with a path, case by case. *)
Inductive notebook_outcome `{PyLib} (rm : bool) (p : Path) (w : World)
  : World * result unit -> Prop :=
| outcome_skipped
    (Hsuffix : suffix p <> ".ipynb") :
    notebook_outcome rm p w (w, Ok tt)
| outcome_reported exc
    (Hsuffix : suffix p = ".ipynb")
    (Hread : snd (read_notebook p w) = Raise exc) :
    notebook_outcome rm p w (printed (error_line p exc) w, Ok tt)
| outcome_fix_raised nb_data nb_data' e
    (Hsuffix : suffix p = ".ipynb")
    (Hread : snd (read_notebook p w) = Ok nb_data)
    (Hfix : fix_widgets_metadata rm nb_data = (nb_data', Raise e)) :
    notebook_outcome rm p w (w, Raise e)
| outcome_unchanged nb_data nb_data'
    (Hsuffix : suffix p = ".ipynb")
    (Hread : snd (read_notebook p w) = Ok nb_data)
    (Hfix : fix_widgets_metadata rm nb_data = (nb_data', Ok false)) :
    notebook_outcome rm p w (w, Ok tt)
| outcome_dumps_raised original nb_data nb_data' e
    (Hsuffix : suffix p = ".ipynb")
    (Hfile : files w !! p = Some original)
    (Hread : snd (read_notebook p w) = Ok nb_data)
    (Hfix : fix_widgets_metadata rm nb_data = (nb_data', Ok true))
    (Hdumps : dumps 2 nb_data' = Raise e) :
    notebook_outcome rm p w (renamed p original w, Raise e)
| outcome_rewritten original nb_data nb_data' text
    (Hsuffix : suffix p = ".ipynb")
    (Hfile : files w !! p = Some original)
    (Hread : snd (read_notebook p w) = Ok nb_data)
    (Hfix : fix_widgets_metadata rm nb_data = (nb_data', Ok true))
    (Hdumps : dumps 2 nb_data' = Ok text) :
    notebook_outcome rm p w
      (printed (fixed_line p)
         (written p (encode_utf8 text) (renamed p original w)), Ok tt).

(** An argument that leads to no notebook: a file without the notebook
    extension, a directory whose listing holds no path with it, or a
    path that is neither. *)
Definition leads_nowhere `{PyFS} (recursive : bool) (fs : gmap Path string)
    (p : Path) : bool :=
  if is_file fs p then negb (String.eqb (suffix p) ".ipynb")
  else if is_dir fs p then
    forallb (fun q => negb (String.eqb (suffix q) ".ipynb"))
            (if recursive then rglob fs p "*.ipynb" else glob fs p "*.ipynb")
  else true.

(** The lines [main] prints for such an argument. *)
Definition lines_for `{PyFS} (recursive : bool) (fs : gmap Path string)
    (p : Path) : list string :=
  if is_file fs p then []
  else if is_dir fs p then
    match (if recursive then rglob fs p "*.ipynb" else glob fs p "*.ipynb") with
    | [] => ["No notebooks found in directory " ++ path_str p]
    | _ => []
    end
  else ["Path not found: " ++ path_str p].

(** * Samples *)

(** ** Sample notebooks *)

(** [{"metadata": {"widgets": {"a": 1}}, "cells": []}] *)
Definition nb_a1 : json :=
  JDict [("metadata", JDict [("widgets", JDict [("a", JInt 1)])]);
         ("cells", JList [])].

(** [{"metadata": {"widgets": null}}] *)
Definition nb_null : json :=
  JDict [("metadata", JDict [("widgets", JNull)])].

(** [{"metadata": []}] *)
Definition nb_list_meta : json :=
  JDict [("metadata", JList [])].

(** [{"cells": [1]}] *)
Definition nb_int_cell : json :=
  JDict [("cells", JList [JInt 1])].

(** A notebook with widgets at both levels: a mapping without state at
    the top, then a cell with a state, a cell whose widgets entry is a
    number, a cell without metadata and a cell whose widgets mapping
    lacks its state. *)
Definition nb_mixed : json :=
  JDict [("nbformat", JInt 4);
         ("metadata", JDict [("kernelspec", JStr "python3");
                             ("widgets", JDict [("a", JInt 1)])]);
         ("cells",
          JList [JDict [("metadata",
                         JDict [("widgets",
                                 JDict [("state", JDict [("x", JInt 1)])])])];
                 JDict [("metadata", JDict [("widgets", JInt 5)])];
                 JDict [("cell_type", JStr "code")];
                 JDict [("metadata",
                         JDict [("widgets", JDict [("version", JInt 2)]);
                                ("tags", JList [])])]])].

(** A notebook without any widgets key. *)
Definition nb_plain : json :=
  JDict [("metadata", JDict [("kernelspec", JStr "python3")]);
         ("cells", JList [JDict [("metadata", JDict [])];
                          JDict [("source", JStr "x = 1")]])].

(** A notebook whose only widgets entry, in a cell, has its state (the
    third end-to-end scenario). *)
Definition nb_cell_state : json :=
  JDict [("metadata", JDict []);
         ("cells",
          JList [JDict [("metadata",
                         JDict [("widgets",
                                 JDict [("state", JDict [("x", JInt 1)])])])]])].

(** ** A sample library and sample worlds *)

(** A stand-in for the codec and the [json] module on three file
    contents: two notebooks and a text that does not parse. *)
Definition sample_loads (text : string) : result json :=
  if String.eqb text "nb_a1" then Ok nb_a1
  else if String.eqb text "nb_cell_state" then Ok nb_cell_state
  else Raise (Exn "JSONDecodeError" "Expecting value: line 1 column 1 (char 0)").

Definition sample_dumps (indent : nat) (v : json) : result string :=
  match v with
  | JDict (("metadata", JDict [("widgets", _)]) :: _) => Ok "nb_a1 with state"
  | JDict _ => Ok "nb_a1 without widgets"
  | _ => Raise (Exn "RecursionError" "maximum recursion depth exceeded")
  end.

#[global] Instance sample_lib : PyLib := {|
  decode_utf8 := Ok;
  encode_utf8 := fun text => text;
  loads := sample_loads;
  dumps := sample_dumps
|}.

Definition a1_ipynb : Path := mkPath "" ["notebooks"] "a1.ipynb".
Definition cell_ipynb : Path := mkPath "" ["notebooks"] "cell.ipynb".
Definition broken_ipynb : Path := mkPath "" ["notebooks"] "broken.ipynb".
Definition notes_txt : Path := mkPath "" ["notebooks"] "notes.txt".

Definition sample_world : World :=
  mkWorld (<[a1_ipynb := "nb_a1"]>
             (<[cell_ipynb := "nb_cell_state"]>
                (<[broken_ipynb := "not json"]>
                   (<[notes_txt := "not json"]> ∅))))
          [].

(** ** More samples *)

(** The entries of a notebook whose second cell is a number, between
    two cells whose widgets entries removal mode would delete. *)
Definition nb_half : entries :=
  [("metadata", JDict [("widgets", JDict [])]);
   ("cells",
    JList [JDict [("metadata", JDict [("widgets", JInt 5)])];
           JInt 7;
           JDict [("metadata", JDict [("widgets", JBool true)])]])].

(** A stand-in for the codec and the [json] module that reads back what
    it writes for the fixed [nb_a1], and parses a third content to a
    notebook with a cell that is a number. *)
Definition roundtrip_loads (text : string) : result json :=
  if String.eqb text "nb_a1" then Ok nb_a1
  else if String.eqb text "nb_a1 fixed"
       then Ok (fst (fix_widgets_metadata false nb_a1))
  else if String.eqb text "nb_int_cell" then Ok nb_int_cell
  else Raise (Exn "JSONDecodeError" "Expecting value: line 1 column 1 (char 0)").

Definition roundtrip_dumps (indent : nat) (v : json) : result string :=
  match v with
  | JDict (("metadata", JDict [("widgets", _)]) :: _) => Ok "nb_a1 fixed"
  | _ => Raise (Exn "RecursionError" "maximum recursion depth exceeded")
  end.

Definition roundtrip_lib : PyLib := {|
  decode_utf8 := Ok;
  encode_utf8 := fun text => text;
  loads := roundtrip_loads;
  dumps := roundtrip_dumps
|}.

Definition int_cell_ipynb : Path := mkPath "" ["notebooks"] "int_cell.ipynb".
Definition missing_ipynb : Path := mkPath "" [] "missing.ipynb".
Definition notebooks_dir : Path := mkPath "" [] "notebooks".
Definition empty_dir : Path := mkPath "" [] "empty".

Definition second_world : World :=
  mkWorld (<[a1_ipynb := "nb_a1"]>
             (<[int_cell_ipynb := "nb_int_cell"]>
                (<[notes_txt := "not json"]> ∅)))
          [].

(** A file system with two directories: [notebooks], in which both
    searches find the three notebooks of [sample_world], and [empty], in
    which they find nothing. *)
Definition sample_fs : PyFS := {|
  is_dir := fun _ p => bool_decide (p = notebooks_dir \/ p = empty_dir);
  glob := fun _ p _ =>
    if bool_decide (p = notebooks_dir)
    then [a1_ipynb; cell_ipynb; broken_ipynb] else [];
  rglob := fun _ p _ =>
    if bool_decide (p = notebooks_dir)
    then [a1_ipynb; cell_ipynb; broken_ipynb] else []
|}.

(** * The Metadata Fixer: supporting facts *)

(** ** Facts about [dict] *)

Module DictFacts.
Import Dict.

Lemma eqb_key_neq (k k' : string) : k <> k' -> String.eqb k k' = false.
Proof. intros H. now apply String.eqb_neq. Qed.

Lemma get_store_present key v v0 d :
  get key d = Some v0 -> get key (store key v d) = Some v.
Proof.
  induction d as [|[k u] d IH]; simpl; [discriminate|].
  destruct (String.eqb k key) eqn:E; simpl; rewrite E; auto.
Qed.

Lemma store_absent key v d : get key d = None -> store key v d = d.
Proof.
  induction d as [|[k u] d IH]; simpl; [reflexivity|].
  destruct (String.eqb k key); [discriminate|].
  intros H. now rewrite IH.
Qed.

Lemma get_store_ne key key' v d :
  key <> key' -> get key' (store key v d) = get key' d.
Proof.
  intros Hne. induction d as [|[k u] d IH]; simpl; [reflexivity|].
  destruct (String.eqb k key) eqn:E; simpl.
  - apply String.eqb_eq in E. subst k.
    now rewrite (eqb_key_neq _ _ Hne).
  - now rewrite IH.
Qed.

Lemma store_same key v d : get key d = Some v -> store key v d = d.
Proof.
  induction d as [|[k u] d IH]; simpl; [reflexivity|].
  destruct (String.eqb k key).
  - now intros [= ->].
  - intros H. now rewrite IH.
Qed.

Lemma store_store key v v' d :
  store key v (store key v' d) = store key v d.
Proof.
  induction d as [|[k u] d IH]; simpl; [reflexivity|].
  destruct (String.eqb k key) eqn:E; simpl; rewrite E; [reflexivity|].
  now rewrite IH.
Qed.

Lemma store_comm key key' v v' d :
  key <> key' ->
  store key v (store key' v' d) = store key' v' (store key v d).
Proof.
  intros Hne. induction d as [|[k u] d IH]; simpl; [reflexivity|].
  destruct (String.eqb k key') eqn:E'; destruct (String.eqb k key) eqn:E;
    simpl; rewrite ?E, ?E'; try reflexivity.
  - apply String.eqb_eq in E, E'. congruence.
  - now rewrite IH.
Qed.

Lemma get_del_eq key d : get key (del key d) = None.
Proof.
  induction d as [|[k u] d IH]; simpl; [reflexivity|].
  destruct (String.eqb k key) eqn:E; simpl; rewrite ?E; auto.
Qed.

Lemma setitem_fresh key v d :
  get key d = None -> setitem key v d = (d ++ [(key, v)])%list.
Proof.
  induction d as [|[k u] d IH]; simpl; [reflexivity|].
  destruct (String.eqb k key); [discriminate|].
  intros H. now rewrite IH.
Qed.

Lemma get_app_fresh key key' v d :
  get key' ((d ++ [(key, v)])%list)
  = match get key' d with
    | Some u => Some u
    | None => if String.eqb key key' then Some v else None
    end.
Proof.
  induction d as [|[k u] d IH]; simpl; [reflexivity|].
  now destruct (String.eqb k key').
Qed.

Lemma mem_false key d : mem key d = false -> get key d = None.
Proof. unfold mem. now destruct (get key d). Qed.

End DictFacts.

(** ** The cases of [fix_location] *)

Lemma fix_location_case rm h : location_case rm h (fix_location rm h).
Proof.
  destruct h as [| | | | | |hd]; try (now constructor).
  unfold fix_location.
  destruct (Dict.get "metadata" hd) as [meta|] eqn:Hmeta; simpl.
  2: { now apply case_no_metadata. }
  destruct meta as [| | | | | |m];
    try (now apply (case_meta_not_dict rm hd _ Hmeta)).
  destruct (Dict.get "widgets" m) as [w|] eqn:Hw.
  2: { now apply (case_no_widgets rm hd m). }
  destruct rm.
  - destruct w; try (now apply (case_removed true hd m _ eq_refl Hmeta Hw));
      now apply (case_null_widgets true hd m).
  - destruct w as [| | | | | |w];
      try (now apply (case_not_mapping false hd m _ eq_refl Hmeta Hw));
      try (now apply (case_null_widgets false hd m)).
    destruct (Dict.mem "state" w) eqn:Hst.
    + now apply (case_has_state false hd m w).
    + rewrite (DictFacts.setitem_fresh _ _ _ (DictFacts.mem_false _ _ Hst)).
      now apply (case_inserted false hd m w).
Qed.

(** Splits a goal about [fix_location rm h], [h] a variable, into the
    nine cases. *)
Ltac location_cases rm h :=
  let r := fresh "r" in
  let Hcase := fresh "Hcase" in
  generalize (fix_location_case rm h); generalize (fix_location rm h);
  intros r Hcase; destruct Hcase;
  try match goal with
      | H : true = false |- _ => discriminate H
      | H : false = true |- _ => discriminate H
      end;
  try subst rm.

(** Rewrites with the lookups known in the context. *)
Ltac dict_rew :=
  repeat match goal with
         | H : Dict.get _ _ = _ |- _ => rewrite H
         | H : Dict.mem _ _ = _ |- _ => rewrite H
         end.

Lemma fix_location_ok rm h : is_ok (snd (fix_location rm h)) = meta_ok h.
Proof.
  location_cases rm h; simpl; dict_rew; try reflexivity.
  - now destruct h.
  - now destruct meta.
Qed.

Lemma fix_location_not_changes rm h :
  changes rm h = false -> fst (fix_location rm h) = h.
Proof. unfold changes. location_cases rm h; simpl; congruence. Qed.

(** The result of [fix_location] is a holder it accepts again, and on
    which it finds nothing to do. *)
Lemma fix_location_again rm h :
  meta_ok h = true ->
  fix_location rm (fst (fix_location rm h))
  = (fst (fix_location rm h), Ok false).
Proof.
  rewrite <- (fix_location_ok rm h).
  location_cases rm h; simpl; try discriminate; intros _;
    unfold fix_location; dict_rew; simpl; dict_rew; try reflexivity.
  - rewrite (DictFacts.get_store_present _ _ _ _ Hmeta). simpl.
    now rewrite DictFacts.get_del_eq.
  - now destruct w.
  - rewrite (DictFacts.get_store_present _ _ _ _ Hmeta). simpl.
    rewrite (DictFacts.get_store_present _ _ _ _ Hw).
    unfold Dict.mem, with_state. rewrite DictFacts.get_app_fresh.
    now rewrite (DictFacts.mem_false _ _ Hstate).
Qed.

Lemma fix_location_meta_ok rm h :
  meta_ok (fst (fix_location rm h)) = meta_ok h.
Proof.
  location_cases rm h; simpl; dict_rew; try reflexivity.
  - now rewrite (DictFacts.get_store_present _ _ _ _ Hmeta).
  - now rewrite (DictFacts.get_store_present _ _ _ _ Hmeta).
Qed.

(** Whatever happens, the holder is still a dict holding the same keys:
    only the object under ["metadata"] may have been mutated. *)
Lemma fix_location_store rm d :
  exists meta',
    fst (fix_location rm (JDict d)) = JDict (Dict.store "metadata" meta' d).
Proof.
  pose proof (fix_location_case rm (JDict d)) as Hc.
  destruct (fix_location rm (JDict d)) as [h' r]. simpl.
  inversion Hc; subst; eauto;
    try (exists JNull; now rewrite DictFacts.store_absent);
    try (eexists; now rewrite (DictFacts.store_same _ _ _ Hmeta)).
Qed.

(** [fix_location] reads and mutates only what is under ["metadata"]. *)
Lemma fix_location_frame rm key v d d1 r :
  key <> "metadata" ->
  fix_location rm (JDict d) = (JDict d1, r) ->
  fix_location rm (JDict (Dict.store key v d))
  = (JDict (Dict.store key v d1), r).
Proof.
  intros Hne. unfold fix_location.
  rewrite (DictFacts.get_store_ne _ _ _ _ Hne).
  destruct (default (JDict []) (Dict.get "metadata" d)) as [| | | | | |m];
    try (now intros [= <- <-]).
  destruct (Dict.get "widgets" m) as [w|]; [|now intros [= <- <-]].
  assert (Hcomm : forall x,
             Dict.store "metadata" x (Dict.store key v d)
             = Dict.store key v (Dict.store "metadata" x d)).
  { intros x. apply DictFacts.store_comm. congruence. }
  destruct w as [| | | | | |w]; destruct rm;
    try (now intros [= <- <-]);
    try (intros [= <- <-]; now rewrite Hcomm).
  destruct (Dict.mem "state" w); intros [= <- <-]; [reflexivity|].
  now rewrite Hcomm.
Qed.

(** ** The loop over the cells *)

Lemma fix_cells_ok rm cells changed :
  is_ok (snd (fix_cells rm cells changed)) = forallb meta_ok cells.
Proof.
  revert changed. induction cells as [|c cells IH]; intros changed; simpl.
  - reflexivity.
  - rewrite <- (fix_location_ok rm c).
    destruct (fix_location rm c) as [c' [b|e]]; simpl; [|reflexivity].
    specialize (IH (changed || b)).
    now destruct (fix_cells rm cells (changed || b)).
Qed.

(** When no cell is refused, every cell has been through [fix_location]
    and the flag is the disjunction of the flags. *)
Lemma fix_cells_run rm cells changed :
  forallb meta_ok cells = true ->
  fix_cells rm cells changed
  = (map (fun c => fst (fix_location rm c)) cells,
     Ok (changed || existsb (changes rm) cells)).
Proof.
  revert changed. induction cells as [|c cells IH]; intros changed; simpl.
  - now rewrite orb_false_r.
  - intros [Hc Hcells]%andb_prop.
    rewrite <- (fix_location_ok rm c) in Hc. unfold changes at 1.
    destruct (fix_location rm c) as [c' [b|e]]; simpl in *; [|discriminate].
    rewrite (IH _ Hcells). now rewrite orb_assoc.
Qed.

(** In every run, each cell is as it was or as [fix_location] left it. *)
Lemma fix_cells_pointwise rm cells changed :
  Forall2 (fun c c' => c' = fst (fix_location rm c) \/ c' = c)
          cells (fst (fix_cells rm cells changed)).
Proof.
  revert changed. induction cells as [|c cells IH]; intros changed; simpl.
  - constructor.
  - destruct (fix_location rm c) as [c' [b|e]] eqn:E.
    + specialize (IH (changed || b)).
      destruct (fix_cells rm cells (changed || b)) as [rest' r]. simpl in *.
      constructor; [left; now rewrite E|assumption].
    + simpl. constructor; [left; now rewrite E|].
      clear. induction cells; constructor; auto.
Qed.

(** Items that are all accepted come from a list: those of a dict or of
    a str are strs. *)
Lemma py_iter_not_list cells items :
  py_iter cells = Ok items -> forallb meta_ok items = true ->
  (exists l, cells = JList l /\ items = l) \/ items = [].
Proof.
  destruct cells as [| | | |s|l|d]; simpl; try discriminate.
  - intros [= <-]. destruct (list_ascii_of_string s); simpl; [now right|discriminate].
  - intros [= <-]. left. eauto.
  - intros [= <-]. destruct d; simpl; [now right|discriminate].
Qed.

(** ** The whole of [fix_widgets_metadata] *)

Lemma fix_location_cells rm d d1 r :
  fix_location rm (JDict d) = (JDict d1, r) ->
  Dict.get "cells" d1 = Dict.get "cells" d.
Proof.
  intros Hrun. destruct (fix_location_store rm d) as [meta' Hst].
  rewrite Hrun in Hst. simpl in Hst. injection Hst as ->.
  now apply DictFacts.get_store_ne.
Qed.

Lemma fix_location_dict rm d :
  exists d1, fix_location rm (JDict d) = (JDict d1, snd (fix_location rm (JDict d))).
Proof.
  destruct (fix_location_store rm d) as [meta' Hst].
  destruct (fix_location rm (JDict d)) as [h r]. simpl in *. subst h. eauto.
Qed.

(** [fix_widgets_metadata] returns exactly on the well-shaped documents. *)
Lemma fix_ok rm doc :
  is_ok (snd (fix_widgets_metadata rm doc)) = well_shaped doc.
Proof.
  unfold fix_widgets_metadata, well_shaped.
  rewrite <- (fix_location_ok rm doc).
  destruct doc as [| | | | | |d]; try reflexivity.
  destruct (fix_location_dict rm d) as [d1 Hrun].
  pose proof (fix_location_cells _ _ _ _ Hrun) as Hcells.
  rewrite Hrun. destruct (snd (fix_location rm (JDict d))) as [c|e]; [|reflexivity].
  simpl. rewrite Hcells.
  destruct (py_iter (default (JList []) (Dict.get "cells" d))) as [items|e];
    [|reflexivity].
  rewrite <- (fix_cells_ok rm items c).
  now destruct (fix_cells rm items c).
Qed.

(** The run on a well-shaped document: the notebook goes through
    [fix_location], then each cell does, and the flag is the disjunction
    of theirs. *)
Lemma fix_run rm d :
  well_shaped (JDict d) = true ->
  exists d1 items,
    fix_location rm (JDict d) = (JDict d1, Ok (changes rm (JDict d)))
    /\ py_iter (cells_of d) = Ok items
    /\ forallb meta_ok items = true
    /\ fix_widgets_metadata rm (JDict d)
       = (JDict (Dict.store "cells"
                   (after_loop (cells_of d)
                      (map (fun c => fst (fix_location rm c)) items)) d1),
          Ok (changes rm (JDict d) || existsb (changes rm) items)).
Proof.
  unfold well_shaped, fix_widgets_metadata, cells_of, changes.
  intros [Hmeta Hcells]%andb_prop.
  rewrite <- (fix_location_ok rm) in Hmeta.
  destruct (fix_location_dict rm d) as [d1 Hrun].
  pose proof (fix_location_cells _ _ _ _ Hrun) as Hget.
  rewrite Hrun.
  destruct (snd (fix_location rm (JDict d))) as [c|e]; [|discriminate].
  simpl. rewrite Hget.
  destruct (py_iter (default (JList []) (Dict.get "cells" d))) as [items|e];
    [|discriminate].
  exists d1, items. repeat split; try assumption.
  now rewrite (fix_cells_run rm items c Hcells).
Qed.

(** ** Places in the tree before and after the run *)

Lemma lookup_path_app p q v :
  lookup_path (p ++ q) v
  = match lookup_path p v with
    | Some u => lookup_path q u
    | None => None
    end.
Proof.
  revert v. induction p as [|s p IH]; intros v; simpl; [reflexivity|].
  destruct (child s v); [apply IH|reflexivity].
Qed.

Lemma holder_at_cell i d h :
  holder_at (CellLevel i) (JDict d) = Some h ->
  exists l, Dict.get "cells" d = Some (JList l) /\ l !! i = Some h.
Proof.
  unfold holder_at. simpl.
  destruct (Dict.get "cells" d) as [[| | | | |l|]|]; simpl; try discriminate.
  destruct (l !! i) eqn:E; [|discriminate].
  intros [= ->]. eauto.
Qed.

Lemma lookup_map {A B} (f : A -> B) (l : list A) (i : nat) :
  map f l !! i = option_map f (l !! i).
Proof.
  revert i. induction l as [|x l IH]; intros [|i]; simpl; auto.
Qed.

(** The holders found in a well-shaped document are accepted by
    [fix_location]. *)
Lemma well_shaped_holder doc loc h :
  well_shaped doc = true -> holder_at loc doc = Some h -> meta_ok h = true.
Proof.
  unfold well_shaped. intros [Hmeta Hcells]%andb_prop.
  destruct loc as [|i].
  - unfold holder_at. simpl. now intros [= <-].
  - destruct doc as [| | | | | |d]; try discriminate.
    intros (l & Hget & Hi)%holder_at_cell.
    rewrite Hget in Hcells. simpl in Hcells.
    rewrite forallb_forall in Hcells. apply Hcells.
    apply list_elem_of_In. eapply list_elem_of_lookup_2. eassumption.
Qed.

(** After the run, what is under the ["metadata"] of a location is what
    [fix_location] left under the ["metadata"] of its holder. *)
Lemma fix_at rm doc loc h p :
  well_shaped doc = true ->
  holder_at loc doc = Some h ->
  lookup_path (holder_path loc ++ Key "metadata" :: p)
              (fst (fix_widgets_metadata rm doc))
  = lookup_path (Key "metadata" :: p) (fst (fix_location rm h)).
Proof.
  intros Hws Hh.
  destruct doc as [| | | | | |d]; try discriminate.
  destruct (fix_run rm d Hws) as (d1 & items & Hrun & Hiter & Hok & ->).
  pose proof (fix_location_cells _ _ _ _ Hrun) as Hcells.
  destruct loc as [|i].
  - unfold holder_at in Hh. simpl in Hh. injection Hh as <-.
    rewrite Hrun. simpl.
    rewrite DictFacts.get_store_ne by discriminate. reflexivity.
  - apply holder_at_cell in Hh as (l & Hget & Hi).
    unfold cells_of in *. rewrite Hget in *. simpl in Hiter.
    injection Hiter as <-.
    cbn [fst holder_path app lookup_path child after_loop].
    rewrite (DictFacts.get_store_present _ _ (JList l)) by congruence.
    simpl. rewrite lookup_map, Hi. reflexivity.
Qed.

(** The run visits exactly the holders of the locations: the flag is set
    if and only if [fix_location] sets it on one of them. *)
Lemma fix_flag rm doc :
  well_shaped doc = true ->
  exists doc' changed,
    fix_widgets_metadata rm doc = (doc', Ok changed)
    /\ (changed = true <->
        exists loc h, holder_at loc doc = Some h /\ changes rm h = true).
Proof.
  intros Hws.
  destruct doc as [| | | | | |d]; try discriminate.
  destruct (fix_run rm d Hws) as (d1 & items & Hrun & Hiter & Hok & ->).
  eexists _, _. split; [reflexivity|].
  rewrite orb_true_iff, existsb_exists. split.
  - intros [Hdoc|(c & Hin & Hc)].
    + exists DocLevel, (JDict d). now split.
    + destruct (py_iter_not_list _ _ Hiter Hok) as [(l & Hl & ->)| ->];
        [|now destruct Hin].
      apply list_elem_of_In, list_elem_of_lookup_1 in Hin as [i Hi].
      exists (CellLevel i), c. split; [|assumption].
      unfold holder_at, cells_of in *. simpl.
      destruct (Dict.get "cells" d) as [c0|]; simpl in *.
      * subst c0. simpl. now rewrite Hi.
      * injection Hl as <-. now rewrite lookup_nil in Hi.
  - intros ([|i] & h & Hh & Hc).
    + unfold holder_at in Hh. simpl in Hh. injection Hh as <-. now left.
    + right. apply holder_at_cell in Hh as (l & Hget & Hi).
      unfold cells_of in Hiter. rewrite Hget in Hiter. simpl in Hiter.
      injection Hiter as <-.
      exists h. split; [|assumption].
      apply list_elem_of_In. eapply list_elem_of_lookup_2. eassumption.
Qed.

Lemma metadata_at_holder loc doc :
  metadata_at loc doc
  = match holder_at loc doc with Some h => meta_of h | None => None end.
Proof. apply lookup_path_app. Qed.

Lemma widgets_at_holder loc doc :
  widgets_at loc doc
  = match holder_at loc doc with Some h => widgets_of h | None => None end.
Proof. apply lookup_path_app. Qed.

Lemma widgets_at_some loc doc w :
  widgets_at loc doc = Some w ->
  exists h, holder_at loc doc = Some h /\ widgets_of h = Some w.
Proof.
  rewrite widgets_at_holder.
  destruct (holder_at loc doc) as [h|]; [eauto|discriminate].
Qed.

Lemma fix_metadata_at rm doc loc h :
  well_shaped doc = true -> holder_at loc doc = Some h ->
  metadata_at loc (fst (fix_widgets_metadata rm doc))
  = meta_of (fst (fix_location rm h)).
Proof. intros Hws Hh. apply (fix_at rm doc loc h [] Hws Hh). Qed.

Lemma fix_widgets_at rm doc loc h :
  well_shaped doc = true -> holder_at loc doc = Some h ->
  widgets_at loc (fst (fix_widgets_metadata rm doc))
  = widgets_of (fst (fix_location rm h)).
Proof. intros Hws Hh. apply (fix_at rm doc loc h [Key "widgets"] Hws Hh). Qed.

(** ** What [fix_location] does to the widgets entry *)

(** Splits a goal about a holder along the lookups [fix_location]
    performs on it. *)
Ltac holder_cases h :=
  unfold changes, fix_location, widgets_of, meta_of, meta_ok;
  let hd := fresh "hd" in
  let m := fresh "m" in
  let w := fresh "w" in
  let Hmeta := fresh "Hmeta" in
  let Hw := fresh "Hw" in
  destruct h as [| | | | | |hd]; simpl;
  try (destruct (Dict.get "metadata" hd) as [[| | | | | |m]|] eqn:Hmeta; simpl);
  try (destruct (Dict.get "widgets" m) as [[| | | | | |w]|] eqn:Hw; simpl);
  try naive_solver.

(** Removal mode sets the flag exactly on a widgets entry that is not
    null. *)
Lemma remove_changes h :
  changes true h = true <->
  meta_ok h = true /\ exists w, widgets_of h = Some w /\ is_null w = false.
Proof. holder_cases h. Qed.

Lemma remove_deletes h w :
  meta_ok h = true -> widgets_of h = Some w -> is_null w = false ->
  exists m, meta_of h = Some (JDict m)
            /\ meta_of (fst (fix_location true h))
               = Some (JDict (Dict.del "widgets" m)).
Proof.
  holder_cases h; intros _ _ _; eexists; (split; [reflexivity|]);
    now rewrite (DictFacts.get_store_present _ _ _ _ Hmeta).
Qed.

Lemma remove_keeps_null h :
  widgets_of h = Some JNull -> fst (fix_location true h) = h.
Proof. holder_cases h. Qed.

(** Insert mode sets the flag exactly on a widgets mapping without
    ["state"]. *)
Lemma insert_changes h :
  changes false h = true <->
  meta_ok h = true
  /\ exists w, widgets_of h = Some (JDict w) /\ Dict.mem "state" w = false.
Proof.
  unfold changes, fix_location, widgets_of, meta_of, meta_ok.
  destruct h as [| | | | | |hd]; simpl;
    try (destruct (Dict.get "metadata" hd) as [[| | | | | |m]|]; simpl);
    try (destruct (Dict.get "widgets" m) as [[| | | | | |w]|]; simpl);
    try (destruct (Dict.mem "state" w) eqn:Hst; simpl);
    naive_solver.
Qed.

Lemma insert_adds_state h w :
  meta_ok h = true ->
  widgets_of h = Some (JDict w) -> Dict.mem "state" w = false ->
  widgets_of (fst (fix_location false h)) = Some (JDict (with_state w)).
Proof.
  holder_cases h. intros _ [= ->] Hst. rewrite Hst. simpl.
  rewrite (DictFacts.get_store_present _ _ _ _ Hmeta).
  rewrite (DictFacts.get_store_present _ _ _ _ Hw).
  now rewrite (DictFacts.setitem_fresh _ _ _ (DictFacts.mem_false _ _ Hst)).
Qed.

(** A holder without a widgets key is left alone in both modes. *)
Lemma no_widgets_no_change rm h :
  widgets_of h = None -> changes rm h = false.
Proof.
  destruct (changes rm h) eqn:Hc; [|reflexivity].
  destruct rm.
  - apply remove_changes in Hc as (_ & w & -> & _). discriminate.
  - apply insert_changes in Hc as (_ & w & -> & _). discriminate.
Qed.

(** ** Runs that change nothing *)

Lemma after_loop_same cells items :
  py_iter cells = Ok items -> after_loop cells items = cells.
Proof.
  destruct cells; simpl; try discriminate; try reflexivity.
  now intros [= ->].
Qed.

Lemma store_cells_of d : Dict.store "cells" (cells_of d) d = d.
Proof.
  unfold cells_of. destruct (Dict.get "cells" d) as [c|] eqn:E; simpl.
  - now apply DictFacts.store_same.
  - now apply DictFacts.store_absent.
Qed.

(** The items of the loop are the holders of the cell locations. *)
Lemma items_are_holders d items c :
  py_iter (cells_of d) = Ok items -> forallb meta_ok items = true ->
  In c items -> exists i, holder_at (CellLevel i) (JDict d) = Some c.
Proof.
  intros Hiter Hok Hin.
  destruct (py_iter_not_list _ _ Hiter Hok) as [(l & Hl & ->)| ->];
    [|now destruct Hin].
  apply list_elem_of_In, list_elem_of_lookup_1 in Hin as [i Hi].
  exists i. unfold holder_at, cells_of in *. simpl.
  destruct (Dict.get "cells" d) as [c0|]; simpl in *.
  - subst c0. simpl. now rewrite Hi.
  - injection Hl as <-. now rewrite lookup_nil in Hi.
Qed.

(** When [fix_location] has nothing to do at any location, the run
    returns false and the tree is the same. *)
Lemma fix_nothing rm doc :
  well_shaped doc = true ->
  (forall loc h, holder_at loc doc = Some h -> changes rm h = false) ->
  fix_widgets_metadata rm doc = (doc, Ok false).
Proof.
  intros Hws Hquiet.
  destruct doc as [| | | | | |d]; try discriminate.
  destruct (fix_run rm d Hws) as (d1 & items & Hrun & Hiter & Hok & ->).
  assert (Hdoc : changes rm (JDict d) = false) by now apply (Hquiet DocLevel).
  assert (Hitems : forall c, In c items -> changes rm c = false).
  { intros c Hin.
    destruct (items_are_holders _ _ _ Hiter Hok Hin) as [i Hi]. eauto. }
  pose proof (fix_location_not_changes _ _ Hdoc) as Hsame.
  rewrite Hrun in Hsame. simpl in Hsame. injection Hsame as ->.
  rewrite Hdoc. simpl.
  assert (Hmap : map (fun c => fst (fix_location rm c)) items = items).
  { rewrite <- (map_id items) at 2. apply map_ext_in.
    intros c Hin. apply fix_location_not_changes. auto. }
  assert (Hex : existsb (changes rm) items = false).
  { destruct (existsb (changes rm) items) eqn:E; [|reflexivity].
    apply existsb_exists in E as (c & Hin & Hc).
    rewrite (Hitems c Hin) in Hc. discriminate. }
  rewrite Hmap, Hex, (after_loop_same _ _ Hiter), store_cells_of.
  reflexivity.
Qed.

(** ** Runs on the sample notebooks *)

Example fix_insert_a1 :
  fix_widgets_metadata false nb_a1
  = (JDict [("metadata",
             JDict [("widgets", JDict [("a", JInt 1); ("state", JDict [])])]);
            ("cells", JList [])], Ok true).
Proof. reflexivity. Qed.

Example fix_remove_a1 :
  fix_widgets_metadata true nb_a1
  = (JDict [("metadata", JDict []); ("cells", JList [])], Ok true).
Proof. reflexivity. Qed.

Example fix_insert_mixed :
  fix_widgets_metadata false nb_mixed
  = (JDict [("nbformat", JInt 4);
            ("metadata",
             JDict [("kernelspec", JStr "python3");
                    ("widgets", JDict [("a", JInt 1); ("state", JDict [])])]);
            ("cells",
             JList [JDict [("metadata",
                            JDict [("widgets",
                                    JDict [("state", JDict [("x", JInt 1)])])])];
                    JDict [("metadata", JDict [("widgets", JInt 5)])];
                    JDict [("cell_type", JStr "code")];
                    JDict [("metadata",
                            JDict [("widgets",
                                    JDict [("version", JInt 2);
                                           ("state", JDict [])]);
                                   ("tags", JList [])])]])],
     Ok true).
Proof. reflexivity. Qed.

Example fix_remove_mixed :
  fix_widgets_metadata true nb_mixed
  = (JDict [("nbformat", JInt 4);
            ("metadata", JDict [("kernelspec", JStr "python3")]);
            ("cells",
             JList [JDict [("metadata", JDict [])];
                    JDict [("metadata", JDict [])];
                    JDict [("cell_type", JStr "code")];
                    JDict [("metadata", JDict [("tags", JList [])])]])],
     Ok true).
Proof. reflexivity. Qed.

Example fix_int_cell :
  fix_widgets_metadata false nb_int_cell
  = (nb_int_cell,
     Raise (Exn "AttributeError" "'int' object has no attribute 'get'")).
Proof. reflexivity. Qed.

(** * The Metadata Fixer: the claims *)

Lemma widgets_of_meta h :
  widgets_of h
  = match meta_of h with
    | Some (JDict m) => Dict.get "widgets" m
    | _ => None
    end.
Proof.
  unfold widgets_of, meta_of. simpl.
  destruct h as [| | | | | |hd]; try reflexivity.
  destruct (Dict.get "metadata" hd) as [[| | | | | |m]|]; try reflexivity.
  now destruct (Dict.get "widgets" m).
Qed.

(** ** Removal mode *)

(** C1, as the code has it: in removal mode, on every document (a
    well-shaped tree), every "widgets" key of the document-level metadata
    mapping or of a cell's metadata mapping whose value is not null,
    whatever the shape of that value, is absent after fix; a "widgets"
    key bound to null is read as absent and stays; and fix returns true
    exactly when at least one key with a value other than null was
    present before the call. *)
Theorem remove_mode_deletes_widgets (doc : json) :
  well_shaped doc = true -> removal_outcome doc.
Proof.
  intros Hws. unfold removal_outcome.
  destruct (fix_flag true doc Hws) as (doc' & changed & Hrun & Hflag).
  exists doc', changed. split; [assumption|].
  assert (Hdoc' : doc' = fst (fix_widgets_metadata true doc)) by now rewrite Hrun.
  split; [|split; [|split]].
  - intros loc w (h & Hh & Hw)%widgets_at_some Hnull.
    pose proof (well_shaped_holder _ _ _ Hws Hh) as Hok.
    destruct (remove_deletes h w Hok Hw Hnull) as (m & Hm & Hm').
    subst doc'. split.
    + rewrite (fix_widgets_at true doc loc h Hws Hh).
      rewrite widgets_of_meta, Hm'. apply DictFacts.get_del_eq.
    + exists m.
      rewrite (fix_metadata_at true doc loc h Hws Hh), metadata_at_holder, Hh.
      now split.
  - intros loc (h & Hh & Hw)%widgets_at_some. subst doc'.
    rewrite (fix_widgets_at true doc loc h Hws Hh).
    now rewrite (remove_keeps_null h Hw).
  - intros Hc. apply Hflag in Hc as (loc & h & Hh & Hc).
    apply remove_changes in Hc as (_ & w & Hw & Hnull).
    exists loc, w. now rewrite widgets_at_holder, Hh.
  - intros (loc & w & (h & Hh & Hw)%widgets_at_some & Hnull).
    apply Hflag. exists loc, h. split; [assumption|].
    apply remove_changes. split; [|eauto].
    eapply well_shaped_holder; eassumption.
Qed.

Lemma remove_mode_deletes_widgets_mixed :
  well_shaped nb_mixed = true /\ removal_outcome nb_mixed.
Proof.
  split; [reflexivity|].
  apply (remove_mode_deletes_widgets nb_mixed). reflexivity.
Defined.

(** C1, as stated, fails on a widgets key bound to null: the key is
    present before the call, it is still there after it, and fix returns
    false. *)
Lemma remove_mode_keeps_null_widgets :
  widgets_at DocLevel nb_null = Some JNull
  /\ fix_widgets_metadata true nb_null = (nb_null, Ok false)
  /\ widgets_at DocLevel (fst (fix_widgets_metadata true nb_null)) = Some JNull.
Proof. repeat split. Qed.

(** ** No widgets key at all *)

(** C7: on every document (a well-shaped tree) in which neither the
    top-level metadata mapping nor any cell's metadata mapping contains a
    "widgets" key, fix returns false and leaves the tree as it is, in
    both modes. *)
Theorem no_widgets_key_no_change (rm : bool) (doc : json) :
  well_shaped doc = true ->
  (forall loc, widgets_at loc doc = None) ->
  fix_widgets_metadata rm doc = (doc, Ok false).
Proof.
  intros Hws Hnone. apply fix_nothing; [assumption|].
  intros loc h Hh. apply no_widgets_no_change.
  specialize (Hnone loc). now rewrite widgets_at_holder, Hh in Hnone.
Qed.

Lemma nb_plain_no_widgets loc : widgets_at loc nb_plain = None.
Proof. destruct loc as [|[|[|i]]]; reflexivity. Qed.

Lemma no_widgets_key_no_change_plain :
  well_shaped nb_plain = true
  /\ (forall loc, widgets_at loc nb_plain = None)
  /\ fix_widgets_metadata true nb_plain = (nb_plain, Ok false)
  /\ fix_widgets_metadata false nb_plain = (nb_plain, Ok false).
Proof.
  split; [reflexivity|]. split; [exact nb_plain_no_widgets|].
  split; apply no_widgets_key_no_change;
    solve [reflexivity | exact nb_plain_no_widgets].
Defined.

(** ** Which trees make fix raise *)

(** The exceptions of [fix_location] and of the loop are those of a
    missing [get] and of a value that cannot be iterated. *)
Lemma fix_location_shape_error rm h e :
  snd (fix_location rm h) = Raise e -> is_shape_error e = true.
Proof. location_cases rm h; simpl; intros [= <-]; reflexivity. Qed.

Lemma fix_cells_shape_error rm cells changed e :
  snd (fix_cells rm cells changed) = Raise e -> is_shape_error e = true.
Proof.
  revert changed. induction cells as [|c cells IH]; intros changed; simpl;
    [discriminate|].
  pose proof (fix_location_shape_error rm c) as Hc.
  destruct (fix_location rm c) as [c' [b|e0]]; simpl in *.
  - specialize (IH (changed || b)).
    destruct (fix_cells rm cells (changed || b)). exact IH.
  - intros [= <-]. now apply Hc.
Qed.

Lemma fix_shape_error rm doc e :
  snd (fix_widgets_metadata rm doc) = Raise e -> is_shape_error e = true.
Proof.
  unfold fix_widgets_metadata.
  pose proof (fix_location_shape_error rm doc) as Hdoc.
  destruct (fix_location rm doc) as [nb1 [c|e0]]; simpl in *;
    [|intros [= <-]; now apply Hdoc].
  destruct nb1 as [| | | | | |d]; try (intros [= <-]; reflexivity).
  destruct (py_iter (default (JList []) (Dict.get "cells" d))) as [items|e0]
    eqn:Hiter.
  - pose proof (fix_cells_shape_error rm items c e) as Hcells.
    destruct (fix_cells rm items c). exact Hcells.
  - intros [= <-].
    destruct (default (JList []) (Dict.get "cells" d)); try discriminate;
      simpl in Hiter; injection Hiter as <-; reflexivity.
Qed.

(** C2, as the code has it: fix returns a boolean exactly on the
    well-shaped trees (a mapping whose "metadata", when present, is a
    mapping and whose "cells", when present, can be iterated and holds
    only such mappings), in both modes; on every other tree it raises
    AttributeError or TypeError.  A widgets value that is not a mapping
    never makes it raise, and insert mode leaves it untouched. *)
Theorem fix_returns_iff_well_shaped (rm : bool) (doc : json) :
  (well_shaped doc = true -> returns_normally rm doc)
  /\ (well_shaped doc = false ->
      exists doc' e,
        fix_widgets_metadata rm doc = (doc', Raise e)
        /\ is_shape_error e = true).
Proof.
  split; intros Hws.
  - destruct (fix_flag rm doc Hws) as (doc' & changed & Hrun & _).
    exists doc', changed. split; [assumption|].
    intros -> loc w (h & Hh & Hw)%widgets_at_some Hshape.
    replace doc' with (fst (fix_widgets_metadata false doc)) by now rewrite Hrun.
    rewrite (fix_metadata_at false doc loc h Hws Hh), metadata_at_holder, Hh.
    rewrite fix_location_not_changes; [reflexivity|].
    destruct (changes false h) eqn:Hc; [|reflexivity].
    apply insert_changes in Hc as (_ & w0 & Hw0 & _).
    rewrite Hw in Hw0. injection Hw0 as ->. discriminate.
  - rewrite <- (fix_ok rm doc) in Hws.
    pose proof (fix_shape_error rm doc) as Hcls.
    destruct (fix_widgets_metadata rm doc) as [doc' [c|e]]; [discriminate|].
    exists doc', e. split; [reflexivity|]. now apply Hcls.
Qed.

Lemma fix_returns_iff_well_shaped_samples :
  (well_shaped nb_mixed = true /\ returns_normally false nb_mixed)
  /\ (well_shaped nb_int_cell = false
      /\ exists doc' e,
          fix_widgets_metadata true nb_int_cell = (doc', Raise e)
          /\ is_shape_error e = true).
Proof.
  split; (split; [reflexivity|]).
  - apply (proj1 (fix_returns_iff_well_shaped false nb_mixed)). reflexivity.
  - apply (proj2 (fix_returns_iff_well_shaped true nb_int_cell)). reflexivity.
Defined.

(** C2, as stated, fails: a top-level metadata value that is not a
    mapping, and a cell that is not a mapping, make fix raise. *)
Lemma fix_raises_on_malformed_shapes :
  fix_widgets_metadata false nb_list_meta
  = (nb_list_meta,
     Raise (Exn "AttributeError" "'list' object has no attribute 'get'"))
  /\ fix_widgets_metadata true nb_int_cell
     = (nb_int_cell,
        Raise (Exn "AttributeError" "'int' object has no attribute 'get'")).
Proof. split; reflexivity. Qed.

(** ** Insert mode on the document-level widgets *)

(** C3: in insert mode, on every document (a well-shaped tree) whose
    metadata.widgets entry is a mapping: if it lacks "state", after fix
    the entry is the same mapping followed by "state" mapped to the empty
    mapping, and fix returns true; if it has "state", the entry is
    unchanged, and when no cell has a widgets mapping without "state" fix
    returns false and the tree is unchanged. *)
Theorem insert_mode_adds_state (doc : json) (w : entries) :
  well_shaped doc = true ->
  widgets_at DocLevel doc = Some (JDict w) ->
  insert_outcome doc w.
Proof.
  intros Hws Hw.
  assert (Hh : holder_at DocLevel doc = Some doc) by reflexivity.
  assert (Hw' : widgets_of doc = Some (JDict w)) by exact Hw.
  pose proof (well_shaped_holder _ _ _ Hws Hh) as Hok.
  destruct (fix_flag false doc Hws) as (doc' & changed & Hrun & Hflag).
  assert (Hdoc' : doc' = fst (fix_widgets_metadata false doc)) by now rewrite Hrun.
  exists doc', changed. split; [assumption|]. split.
  - intros Hst. split.
    + apply Hflag. exists DocLevel, doc. split; [assumption|].
      apply insert_changes. eauto.
    + rewrite Hdoc', (fix_widgets_at false doc DocLevel doc Hws Hh).
      now apply insert_adds_state.
  - intros Hst.
    assert (Hquiet : changes false doc = false).
    { destruct (changes false doc) eqn:Hc; [|reflexivity].
      apply insert_changes in Hc as (_ & w0 & Hw0 & Hst0).
      rewrite Hw' in Hw0. injection Hw0 as <-. congruence. }
    split.
    + rewrite Hdoc', (fix_widgets_at false doc DocLevel doc Hws Hh).
      now rewrite (fix_location_not_changes _ _ Hquiet).
    + intros Hcells.
      assert (Hnothing : fix_widgets_metadata false doc = (doc, Ok false)).
      { apply fix_nothing; [assumption|].
        intros [|i] h Hhi.
        - injection Hhi as <-. assumption.
        - destruct (changes false h) eqn:Hc; [|reflexivity].
          apply insert_changes in Hc as (_ & wc & Hwc & Hstc).
          rewrite (Hcells i wc) in Hstc; [discriminate|].
          now rewrite widgets_at_holder, Hhi. }
      rewrite Hnothing in Hrun. injection Hrun as <- <-. now split.
Qed.

Lemma insert_mode_adds_state_a1 :
  (well_shaped nb_a1 = true
   /\ widgets_at DocLevel nb_a1 = Some (JDict [("a", JInt 1)]))
  /\ insert_outcome nb_a1 [("a", JInt 1)].
Proof.
  split; [split; reflexivity|].
  apply (insert_mode_adds_state nb_a1 [("a", JInt 1)]); reflexivity.
Defined.

(** ** A second run *)

Lemma iter_after_loop rm cells items :
  py_iter cells = Ok items -> forallb meta_ok items = true ->
  py_iter (after_loop cells (map (fun c => fst (fix_location rm c)) items))
  = Ok (map (fun c => fst (fix_location rm c)) items).
Proof.
  intros Hiter Hok.
  destruct (py_iter_not_list _ _ Hiter Hok) as [(l & -> & ->)| ->].
  - reflexivity.
  - simpl. now rewrite (after_loop_same _ _ Hiter).
Qed.

Lemma cells_of_after rm d d1 items :
  Dict.get "cells" d1 = Dict.get "cells" d ->
  py_iter (cells_of d) = Ok items ->
  cells_of (Dict.store "cells"
              (after_loop (cells_of d)
                 (map (fun c => fst (fix_location rm c)) items)) d1)
  = after_loop (cells_of d) (map (fun c => fst (fix_location rm c)) items).
Proof.
  intros Hget Hiter. unfold cells_of in *.
  destruct (Dict.get "cells" d) as [c0|] eqn:E; simpl in *.
  - now rewrite (DictFacts.get_store_present _ _ _ _ Hget).
  - injection Hiter as <-. simpl.
    now rewrite (DictFacts.store_absent _ _ _ Hget), Hget.
Qed.

Lemma forallb_meta_ok_fixed rm items :
  forallb meta_ok (map (fun c => fst (fix_location rm c)) items)
  = forallb meta_ok items.
Proof.
  induction items as [|c items IH]; simpl; [reflexivity|].
  now rewrite fix_location_meta_ok, IH.
Qed.

(** A run on a well-shaped document leaves a well-shaped document. *)
Lemma fix_well_shaped rm doc :
  well_shaped doc = true ->
  well_shaped (fst (fix_widgets_metadata rm doc)) = true.
Proof.
  intros Hws.
  destruct doc as [| | | | | |d]; try discriminate.
  destruct (fix_run rm d Hws) as (d1 & items & Hrun & Hiter & Hok & ->).
  pose proof (fix_location_cells _ _ _ _ Hrun) as Hget.
  apply andb_prop in Hws as [Hmeta _].
  cbn [fst]. unfold well_shaped. apply andb_true_intro. split.
  - unfold meta_ok. rewrite DictFacts.get_store_ne by discriminate.
    change (meta_ok (JDict d1) = true).
    replace (JDict d1) with (fst (fix_location rm (JDict d))) by now rewrite Hrun.
    now rewrite fix_location_meta_ok.
  - fold (cells_of (Dict.store "cells"
                      (after_loop (cells_of d)
                         (map (fun c => fst (fix_location rm c)) items)) d1)).
    rewrite (cells_of_after rm d d1 items Hget Hiter).
    rewrite (iter_after_loop rm _ _ Hiter Hok).
    now rewrite forallb_meta_ok_fixed.
Qed.

(** The holders found after a run are the results of [fix_location],
    and it finds nothing more to do on them. *)
Lemma fix_holders_quiet rm doc loc h' :
  well_shaped doc = true ->
  holder_at loc (fst (fix_widgets_metadata rm doc)) = Some h' ->
  changes rm h' = false.
Proof.
  intros Hws.
  destruct doc as [| | | | | |d]; try discriminate.
  destruct (fix_run rm d Hws) as (d1 & items & Hrun & Hiter & Hok & ->).
  pose proof (fix_location_cells _ _ _ _ Hrun) as Hget.
  cbn [fst]. destruct loc as [|i].
  - intros [= <-].
    assert (Hagain : fix_location rm (JDict d1) = (JDict d1, Ok false)).
    { replace (JDict d1) with (fst (fix_location rm (JDict d))) by now rewrite Hrun.
      apply fix_location_again.
      now apply andb_prop in Hws as [Hmeta _]. }
    unfold changes.
    rewrite (fix_location_frame rm "cells" _ d1 d1 (Ok false)); try done.
  - intros (l & Hl & Hi)%holder_at_cell.
    pose proof (cells_of_after rm d d1 items Hget Hiter) as Hcells.
    unfold cells_of at 1 in Hcells. rewrite Hl in Hcells. simpl in Hcells.
    pose proof (iter_after_loop rm _ _ Hiter Hok) as Hiter'.
    rewrite <- Hcells in Hiter'. simpl in Hiter'. injection Hiter' as ->.
    rewrite lookup_map in Hi.
    destruct (items !! i) as [h|] eqn:Ei; [|discriminate].
    injection Hi as <-.
    assert (Hh : meta_ok h = true).
    { rewrite forallb_forall in Hok. apply Hok.
      apply list_elem_of_In. eapply list_elem_of_lookup_2. eassumption. }
    unfold changes. now rewrite (fix_location_again rm h Hh).
Qed.

(** C4: idempotence.  On every document (a well-shaped tree) and in
    either mode, fix run a second time with the same flag on the tree the
    first run left changes nothing and returns false. *)
Theorem fix_twice_changes_nothing (rm : bool) (doc : json) :
  well_shaped doc = true ->
  exists doc1 changed,
    fix_widgets_metadata rm doc = (doc1, Ok changed)
    /\ fix_widgets_metadata rm doc1 = (doc1, Ok false).
Proof.
  intros Hws.
  destruct (fix_flag rm doc Hws) as (doc1 & changed & Hrun & _).
  exists doc1, changed. split; [assumption|].
  assert (Hdoc1 : doc1 = fst (fix_widgets_metadata rm doc)) by now rewrite Hrun.
  apply fix_nothing.
  - subst doc1. now apply fix_well_shaped.
  - intros loc h' Hh'. subst doc1.
    eapply fix_holders_quiet; eassumption.
Qed.

Lemma fix_twice_changes_nothing_mixed :
  well_shaped nb_mixed = true
  /\ (exists doc1 changed,
         fix_widgets_metadata false nb_mixed = (doc1, Ok changed)
         /\ fix_widgets_metadata false doc1 = (doc1, Ok false))
  /\ (exists doc1 changed,
         fix_widgets_metadata true nb_mixed = (doc1, Ok changed)
         /\ fix_widgets_metadata true doc1 = (doc1, Ok false)).
Proof.
  split; [reflexivity|].
  split; apply fix_twice_changes_nothing; reflexivity.
Defined.

(** ** Every run, returning or raising *)

(** The tree after any run on a dict: the notebook as [fix_location]
    left it, with its cells, when they are a list, visited. *)
Lemma fix_any_run rm d :
  exists d1 cells',
    fst (fix_location rm (JDict d)) = JDict d1
    /\ fst (fix_widgets_metadata rm (JDict d))
       = JDict (Dict.store "cells" cells' d1)
    /\ (forall c0, Dict.get "cells" d = Some c0 ->
          cells' = c0
          \/ exists l l', c0 = JList l /\ cells' = JList l' /\ visited rm l l').
Proof.
  destruct (fix_location_dict rm d) as [d1 Hrun].
  pose proof (fix_location_cells _ _ _ _ Hrun) as Hget.
  unfold fix_widgets_metadata. rewrite Hrun.
  destruct (snd (fix_location rm (JDict d))) as [c|e].
  - simpl. fold (cells_of d1).
    destruct (py_iter (cells_of d1)) as [items|e] eqn:Hiter.
    + pose proof (fix_cells_pointwise rm items c) as Hpt.
      destruct (fix_cells rm items c) as [items' r]. simpl in *.
      exists d1, (after_loop (cells_of d1) items').
      repeat split. intros c0 Hc0.
      unfold cells_of in *. rewrite Hget, Hc0 in *. simpl in *.
      destruct c0; simpl; auto.
      injection Hiter as ->. right. eauto.
    + exists d1, (cells_of d1). simpl. rewrite store_cells_of.
      repeat split. intros c0 Hc0. left.
      unfold cells_of. now rewrite Hget, Hc0.
  - exists d1, (cells_of d1). simpl. rewrite store_cells_of.
    repeat split. intros c0 Hc0. left.
    unfold cells_of. now rewrite Hget, Hc0.
Qed.

(** ** Absent metadata *)

(** A holder without a ["metadata"] key is left as it is, and the flag
    is not set for it. *)
Lemma no_metadata_no_change rm h :
  meta_of h = None -> fst (fix_location rm h) = h /\ changes rm h = false.
Proof. holder_cases h. Qed.

Lemma visited_lookup rm l l' i h :
  visited rm l l' -> l !! i = Some h ->
  exists h', l' !! i = Some h' /\ (h' = fst (fix_location rm h) \/ h' = h).
Proof.
  intros Hv. revert i. induction Hv as [|c c' l l' Hc _ IH]; intros [|i]; simpl;
    try discriminate.
  - intros [= <-]. eauto.
  - apply IH.
Qed.

(** C10: fix never creates a metadata mapping.  In both modes and on
    every tree, a location (the document, or a cell) that has no
    "metadata" key before the call has none after it; such a location does
    not set the flag; and when fix returns true some location had a
    widgets entry other than null under its metadata. *)
Theorem absent_metadata_stays_absent (rm : bool) (doc : json) :
  (forall loc h,
      holder_at loc doc = Some h -> meta_of h = None ->
      changes rm h = false
      /\ exists h', holder_at loc (fst (fix_widgets_metadata rm doc)) = Some h'
                    /\ meta_of h' = None)
  /\ (snd (fix_widgets_metadata rm doc) = Ok true ->
      exists loc m w,
        metadata_at loc doc = Some (JDict m)
        /\ Dict.get "widgets" m = Some w /\ is_null w = false).
Proof.
  split.
  - intros loc h Hh Hmeta.
    destruct (no_metadata_no_change rm h Hmeta) as [Hsame Hquiet].
    split; [assumption|].
    destruct doc as [| | | | | |d];
      try (destruct loc; [injection Hh as <-; eexists; split;
                            [reflexivity|exact Hmeta]|discriminate]).
    destruct (fix_any_run rm d) as (d1 & cells' & Hd1 & -> & Hcells).
    destruct loc as [|i].
    + injection Hh as <-. eexists. split; [reflexivity|].
      rewrite Hsame in Hd1. injection Hd1 as <-.
      unfold meta_of in *. simpl in *.
      rewrite DictFacts.get_store_ne by discriminate. assumption.
    + apply holder_at_cell in Hh as (l & Hl & Hi).
      assert (Hget : Dict.get "cells" d1 = Some (JList l)).
      { rewrite <- Hl. eapply fix_location_cells.
        rewrite <- Hd1. apply surjective_pairing. }
      unfold holder_at. simpl.
      rewrite (DictFacts.get_store_present _ _ _ _ Hget).
      destruct (Hcells _ Hl) as [->|(l0 & l' & [= <-] & -> & Hv)].
      * rewrite Hi. eauto.
      * destruct (visited_lookup _ _ _ _ _ Hv Hi) as (h' & -> & Hh').
        exists h'. split; [reflexivity|].
        destruct Hh' as [->| ->]; [now rewrite Hsame|assumption].
  - intros Hret.
    assert (Hws : well_shaped doc = true).
    { rewrite <- (fix_ok rm doc), Hret. reflexivity. }
    destruct (fix_flag rm doc Hws) as (doc' & changed & Hrun & Hflag).
    rewrite Hrun in Hret. injection Hret as ->.
    destruct (proj1 Hflag eq_refl) as (loc & h & Hh & Hc).
    assert (Hw : exists w, widgets_of h = Some w /\ is_null w = false).
    { destruct rm.
      - apply remove_changes in Hc as (_ & w & Hw & Hnull). eauto.
      - apply insert_changes in Hc as (_ & w & Hw & _). eauto. }
    destruct Hw as (w & Hw & Hnull).
    rewrite widgets_of_meta in Hw.
    destruct (meta_of h) as [[| | | | | |m]|] eqn:Hm; try discriminate.
    exists loc, m, w. rewrite metadata_at_holder, Hh. auto.
Qed.

Lemma absent_metadata_stays_absent_mixed :
  (holder_at (CellLevel 2) nb_mixed = Some (JDict [("cell_type", JStr "code")])
   /\ meta_of (JDict [("cell_type", JStr "code")]) = None)
  /\ changes true (JDict [("cell_type", JStr "code")]) = false
  /\ exists h',
       holder_at (CellLevel 2) (fst (fix_widgets_metadata true nb_mixed))
       = Some h'
       /\ meta_of h' = None.
Proof.
  split; [split; reflexivity|].
  apply (proj1 (absent_metadata_stays_absent true nb_mixed) (CellLevel 2));
    reflexivity.
Defined.

(** ** Insert mode only adds *)

Lemma entries_same d : Forall2 entry_grows d d.
Proof. induction d; constructor; [split; [reflexivity|constructor]|assumption]. Qed.

(** Replacing, in a grown mapping, the value under [key] by a grown
    value gives a grown mapping. *)
Lemma entries_store key v' d d1 :
  Forall2 entry_grows d d1 ->
  (forall v, Dict.get key d = Some v ->
             grows (String.eqb key "widgets") v v') ->
  Forall2 entry_grows d (Dict.store key v' d1).
Proof.
  intros Hd. induction Hd as [|[k v] [k1 v1] d d1 [Hk Hv] Hd IH]; intros Hkey;
    simpl in *; [constructor|]. subst k1.
  destruct (String.eqb k key) eqn:E.
  - apply String.eqb_eq in E. subst k.
    constructor; [|assumption]. split; [reflexivity|]. simpl. now apply Hkey.
  - constructor; [now split|]. apply IH. exact Hkey.
Qed.

Lemma grows_weaken u v v' : grows u v v' -> grows true v v'.
Proof. intros H. inversion H; subst; now constructor. Qed.

Lemma grows_store u key v' d :
  (forall v, Dict.get key d = Some v ->
             grows (String.eqb key "widgets") v v') ->
  grows u (JDict d) (JDict (Dict.store key v' d)).
Proof. intros H. apply grows_dict, entries_store; [apply entries_same|exact H]. Qed.

Lemma fix_location_grows h : grows false h (fst (fix_location false h)).
Proof.
  location_cases false h; simpl; try apply grows_same.
  apply grows_store. intros v Hv. rewrite Hmeta in Hv. injection Hv as <-.
  apply grows_store. intros v Hv. rewrite Hw in Hv. injection Hv as <-.
  now apply grows_state.
Qed.

Lemma visited_grows l l' : visited false l l' -> Forall2 (grows false) l l'.
Proof.
  induction 1 as [|c c' l l' [->| ->] _ IH]; constructor; try assumption.
  - apply fix_location_grows.
  - constructor.
Qed.

Lemma fix_grows doc : grows false doc (fst (fix_widgets_metadata false doc)).
Proof.
  destruct doc as [| | | | | |d]; try constructor.
  destruct (fix_any_run false d) as (d1 & cells' & Hd1 & -> & Hcells).
  pose proof (fix_location_grows (JDict d)) as Hg. rewrite Hd1 in Hg.
  assert (Hent : Forall2 entry_grows d d1).
  { inversion Hg; subst; [apply entries_same|assumption]. }
  apply grows_dict, entries_store; [assumption|].
  intros c0 Hc0. simpl.
  destruct (Hcells _ Hc0) as [->|(l & l' & -> & -> & Hv)]; [constructor|].
  apply grows_list. now apply visited_grows.
Qed.

(** *** What [grows] keeps *)

Lemma entries_get d d' key v :
  Forall2 entry_grows d d' -> Dict.get key d = Some v ->
  exists v', Dict.get key d' = Some v' /\ grows true v v'.
Proof.
  induction 1 as [|[k x] [k' x'] d d' [Hk Hx] _ IH]; simpl in *;
    [discriminate|]. subst k'.
  destruct (String.eqb k key).
  - intros [= <-]. exists x'. split; [reflexivity|].
    eapply grows_weaken. eassumption.
  - exact IH.
Qed.

Lemma grows_child u v v' s x :
  grows u v v' -> child s v = Some x ->
  exists x', child s v' = Some x' /\ grows true x x'.
Proof.
  intros Hg Hx. inversion Hg; subst.
  - exists x. split; [assumption|constructor].
  - destruct s as [k|i]; simpl in *; [|discriminate].
    exists x. split; [|constructor].
    now rewrite DictFacts.get_app_fresh, Hx.
  - destruct s as [k|i]; simpl in *; [discriminate|].
    destruct (Forall2_lookup_l _ _ _ _ _ H Hx) as (x' & Hx' & Hgx).
    exists x'. split; [assumption|]. eapply grows_weaken. eassumption.
  - destruct s as [k|i]; simpl in *; [|discriminate].
    eapply entries_get; eassumption.
Qed.

Lemma grows_lookup p : forall u v v' x,
  grows u v v' -> lookup_path p v = Some x ->
  exists x', lookup_path p v' = Some x' /\ grows true x x'.
Proof.
  induction p as [|s p IH]; intros u v v' x Hg; simpl.
  - intros [= <-]. exists v'. split; [reflexivity|].
    eapply grows_weaken. eassumption.
  - destruct (child s v) as [y|] eqn:Hy; [|discriminate].
    destruct (grows_child _ _ _ _ _ Hg Hy) as (y' & -> & Hgy).
    now apply (IH true).
Qed.

Lemma grows_scalar u v v' : grows u v v' -> is_container v = false -> v' = v.
Proof. intros H. inversion H; subst; simpl; congruence. Qed.

(** C9: insert mode never deletes nor overwrites.  On every tree,
    whether fix returns or raises, the tree after the call is the tree
    before it with "state" mapped to the empty mapping added to some
    widgets mappings that lacked it; so whatever a path reached before
    the call it still reaches after it, the same value for a scalar,
    and for a list or a mapping the same container, grown only by such
    insertions. *)
Theorem insert_mode_only_adds_state (doc : json) :
  grows false doc (fst (fix_widgets_metadata false doc))
  /\ (forall p v,
        lookup_path p doc = Some v ->
        exists v',
          lookup_path p (fst (fix_widgets_metadata false doc)) = Some v'
          /\ grows true v v'
          /\ (is_container v = false -> v' = v)).
Proof.
  split; [apply fix_grows|].
  intros p v Hv.
  destruct (grows_lookup p _ _ _ _ (fix_grows doc) Hv) as (v' & Hv' & Hg).
  exists v'. repeat split; try assumption.
  now apply (grows_scalar true).
Qed.

Lemma insert_mode_only_adds_state_mixed :
  lookup_path [Key "metadata"; Key "kernelspec"] nb_mixed
  = Some (JStr "python3")
  /\ exists v',
       lookup_path [Key "metadata"; Key "kernelspec"]
                   (fst (fix_widgets_metadata false nb_mixed)) = Some v'
       /\ grows true (JStr "python3") v'
       /\ (is_container (JStr "python3") = false -> v' = JStr "python3").
Proof.
  split; [reflexivity|].
  apply (proj2 (insert_mode_only_adds_state nb_mixed)). reflexivity.
Defined.

(** * The Batch Processor: the claims *)

(** ** Facts about strings and paths *)

Lemma str_take_drop n s : str_take n s ++ str_drop n s = s.
Proof.
  revert s. induction n as [|n IH]; intros [|c s]; try reflexivity.
  change (String c (str_take n s ++ str_drop n s) = String c s).
  now rewrite IH.
Qed.

Lemma length_str_drop n s :
  String.length (str_drop n s) = String.length s - n.
Proof.
  revert s. induction n as [|n IH]; intros [|c s]; simpl; try reflexivity.
  apply IH.
Qed.

Lemma length_append s t :
  String.length (s ++ t) = String.length s + String.length t.
Proof. induction s as [|c s IH]; [reflexivity|]. simpl. now f_equal. Qed.

Lemma append_assoc s t u : (s ++ t) ++ u = s ++ (t ++ u).
Proof.
  induction s as [|c s IH]; [reflexivity|].
  change (String c ((s ++ t) ++ u) = String c (s ++ (t ++ u))).
  now rewrite IH.
Qed.

(** A suffix that is not empty is the end of the name. *)
Lemma suffix_split p :
  suffix p <> "" ->
  name p
  = str_take (String.length (name p) - String.length (suffix p)) (name p)
    ++ suffix p.
Proof.
  unfold suffix.
  destruct ((0 <? rfind_dot (name p))%Z
            && (rfind_dot (name p) <? Z.of_nat (String.length (name p)) - 1)%Z)%bool
    eqn:E; [|congruence].
  intros _. apply andb_prop in E as [Hpos Hlt].
  apply Z.ltb_lt in Hpos, Hlt.
  rewrite length_str_drop.
  replace (String.length (name p)
           - (String.length (name p) - Z.to_nat (rfind_dot (name p))))
    with (Z.to_nat (rfind_dot (name p))) by lia.
  symmetry. apply str_take_drop.
Qed.

Lemma with_suffix_bak p :
  suffix p = ".ipynb" ->
  with_suffix p (suffix p ++ ".bak") = Ok (backup_of p).
Proof.
  intros Hs.
  assert (Hsplit := suffix_split p). rewrite Hs in Hsplit.
  specialize (Hsplit ltac:(discriminate)).
  unfold with_suffix. rewrite Hs. simpl.
  destruct (String.eqb (name p) "") eqn:E.
  - apply String.eqb_eq in E. unfold suffix in Hs. rewrite E in Hs.
    discriminate.
  - unfold backup_of. f_equal. f_equal.
    rewrite Hsplit at 3. now rewrite append_assoc.
Qed.

Lemma backup_of_neq p : backup_of p <> p.
Proof.
  intros H. apply (f_equal name) in H. apply (f_equal String.length) in H.
  simpl in H. rewrite length_append in H. simpl in H. lia.
Qed.

Section BatchFacts.
Context `{PyLib}.

Lemma read_notebook_world p w : fst (read_notebook p w) = w.
Proof.
  unfold read_notebook, read_text, mbind, IO_bind, lift.
  destruct (files w !! p) as [bytes|]; [|reflexivity].
  now destruct (decode_utf8 bytes).
Qed.

Lemma read_notebook_result p w :
  read_notebook p w = (w, snd (read_notebook p w)).
Proof.
  rewrite <- (read_notebook_world p w) at 2. apply surjective_pairing.
Qed.

Lemma process_notebooks_step rm p rest w w' :
  process_notebook rm p w = (w', Ok tt) ->
  process_notebooks (p :: rest) rm w = process_notebooks rest rm w'.
Proof.
  intros Hstep. simpl. unfold mbind at 1, IO_bind at 1. now rewrite Hstep.
Qed.

(** The loop body on a path with the notebook extension, after the
    [try]. *)
Lemma process_notebook_parsed rm p w nb_data :
  suffix p = ".ipynb" ->
  snd (read_notebook p w) = Ok nb_data ->
  process_notebook rm p w
  = match fix_widgets_metadata rm nb_data with
    | (nb_data', Ok true) => backup_and_write p nb_data' w
    | (_, Ok false) => (w, Ok tt)
    | (_, Raise e) => (w, Raise e)
    end.
Proof.
  intros Hs Hread. unfold process_notebook. rewrite Hs. simpl.
  unfold mbind at 1, IO_bind at 1, try_except.
  unfold mbind at 1, IO_bind at 1.
  rewrite (read_notebook_result p w), Hread. simpl.
  unfold mbind, IO_bind, call_fix.
  destruct (fix_widgets_metadata rm nb_data) as [nb_data' [[|]|e]];
    reflexivity.
Qed.

(** C5: for every path of the batch whose content cannot be read or
    parsed (the read and the parse are those of the try block, which a
    path reaches when it has the notebook extension), the batch
    processor prints one line with the path and the reason, leaves
    every file as it is (no backup, no write) and goes on with the next
    path: the failure does not end the batch. *)
Theorem unreadable_notebook_is_reported
    (rm : bool) (p : Path) (rest : list Path) (w : World) (exc : exn) :
  suffix p = ".ipynb" ->
  snd (read_notebook p w) = Raise exc ->
  process_notebook rm p w = (printed (error_line p exc) w, Ok tt)
  /\ files (printed (error_line p exc) w) = files w
  /\ process_notebooks (p :: rest) rm w
     = process_notebooks rest rm (printed (error_line p exc) w).
Proof.
  intros Hs Hread.
  assert (Hstep : process_notebook rm p w = (printed (error_line p exc) w, Ok tt)).
  { unfold process_notebook. rewrite Hs. simpl.
    unfold mbind at 1, IO_bind at 1, try_except.
    unfold mbind at 1, IO_bind at 1.
    rewrite (read_notebook_result p w), Hread. reflexivity. }
  split; [exact Hstep|]. split; [reflexivity|].
  now apply process_notebooks_step.
Qed.

(** C8: for every path whose parsed document the Metadata Fixer reports
    as unchanged, the batch processor does nothing more: the files and
    the output are as they were, and it goes on with the next path. *)
Theorem unchanged_notebook_is_left_alone
    (rm : bool) (p : Path) (rest : list Path) (w : World)
    (nb_data nb_data' : json) :
  suffix p = ".ipynb" ->
  snd (read_notebook p w) = Ok nb_data ->
  fix_widgets_metadata rm nb_data = (nb_data', Ok false) ->
  process_notebook rm p w = (w, Ok tt)
  /\ process_notebooks (p :: rest) rm w = process_notebooks rest rm w.
Proof.
  intros Hs Hread Hfix.
  assert (Hstep : process_notebook rm p w = (w, Ok tt)).
  { now rewrite (process_notebook_parsed rm p w nb_data Hs Hread), Hfix. }
  split; [exact Hstep|]. now apply process_notebooks_step.
Qed.

(** The run of lines 86-90 on a notebook, world by world. *)
Lemma backup_and_write_run p nb_data' w original :
  suffix p = ".ipynb" ->
  files w !! p = Some original ->
  replace p (backup_of p) w = (renamed p original w, Ok tt)
  /\ backup_and_write p nb_data' w
     = match dumps 2 nb_data' with
       | Ok text =>
           (printed (fixed_line p)
              (written p (encode_utf8 text) (renamed p original w)), Ok tt)
       | Raise e => (renamed p original w, Raise e)
       end.
Proof.
  intros Hs Hfile.
  assert (Hmove : replace p (backup_of p) w = (renamed p original w, Ok tt)).
  { unfold replace. now rewrite Hfile. }
  split; [exact Hmove|].
  unfold backup_and_write. rewrite (with_suffix_bak p Hs).
  unfold mbind, IO_bind, lift. rewrite Hmove.
  destruct (dumps 2 nb_data'); reflexivity.
Qed.

(** C6: for every path the batch processor changes, the original file is
    first moved to the backup path, which is the original path with
    [.bak] appended to the file name; the bytes of the original are then
    at the backup path and nothing is at the original path.  Only then is
    the mutated tree serialized with an indentation of 2: if that raises,
    the world stays as the move left it; otherwise the text is written
    at the original path, and the backup still holds the original
    bytes. *)
Theorem changed_notebook_backup_then_write
    (rm : bool) (p : Path) (rest : list Path) (w : World)
    (original : string) (nb_data nb_data' : json) :
  suffix p = ".ipynb" ->
  files w !! p = Some original ->
  snd (read_notebook p w) = Ok nb_data ->
  fix_widgets_metadata rm nb_data = (nb_data', Ok true) ->
  backup_then_write rm p rest w original nb_data'.
Proof.
  intros Hs Hfile Hread Hfix. unfold backup_then_write.
  destruct (backup_and_write_run p nb_data' w original Hs Hfile) as [Hmove Hrun].
  pose proof (backup_of_neq p) as Hne.
  assert (Hstep : process_notebook rm p w = backup_and_write p nb_data' w).
  { now rewrite (process_notebook_parsed rm p w nb_data Hs Hread), Hfix. }
  split; [now apply with_suffix_bak|]. split; [reflexivity|].
  split; [exact Hmove|].
  split; [apply lookup_insert_eq|].
  split; [simpl; rewrite lookup_insert_ne by exact Hne; apply lookup_delete_eq|].
  rewrite Hstep, Hrun.
  destruct (dumps 2 nb_data') as [text|e]; [|reflexivity].
  split; [reflexivity|].
  split; [simpl; rewrite lookup_insert_ne by congruence; apply lookup_insert_eq|].
  split; [apply lookup_insert_eq|].
  apply process_notebooks_step. now rewrite Hstep, Hrun.
Qed.

End BatchFacts.

(** ** The batch processor on the sample world *)

Example process_sample_batch :
  process_notebooks [notes_txt; broken_ipynb; cell_ipynb; a1_ipynb] false
                    sample_world
  = (mkWorld (<[a1_ipynb := "nb_a1 with state"]>
                (<[backup_of a1_ipynb := "nb_a1"]>
                   (delete a1_ipynb (files sample_world))))
             [error_line broken_ipynb (Exn "JSONDecodeError"
                "Expecting value: line 1 column 1 (char 0)");
              fixed_line a1_ipynb],
     Ok tt).
Proof. vm_compute. reflexivity. Qed.

Lemma unreadable_notebook_is_reported_broken :
  (suffix broken_ipynb = ".ipynb"
   /\ snd (read_notebook broken_ipynb sample_world)
      = Raise (Exn "JSONDecodeError" "Expecting value: line 1 column 1 (char 0)"))
  /\ process_notebooks [broken_ipynb; a1_ipynb] false sample_world
     = process_notebooks [a1_ipynb] false
         (printed "Error reading notebooks/broken.ipynb: Expecting value: line 1 column 1 (char 0)"
                  sample_world).
Proof.
  split; [split; reflexivity|].
  apply (unreadable_notebook_is_reported false broken_ipynb [a1_ipynb]
           sample_world
           (Exn "JSONDecodeError" "Expecting value: line 1 column 1 (char 0)"));
    reflexivity.
Defined.

Lemma unchanged_notebook_is_left_alone_cell :
  (suffix cell_ipynb = ".ipynb"
   /\ snd (read_notebook cell_ipynb sample_world) = Ok nb_cell_state
   /\ fix_widgets_metadata false nb_cell_state = (nb_cell_state, Ok false))
  /\ process_notebook false cell_ipynb sample_world = (sample_world, Ok tt)
  /\ process_notebooks [cell_ipynb; a1_ipynb] false sample_world
     = process_notebooks [a1_ipynb] false sample_world.
Proof.
  split; [repeat split|].
  apply (unchanged_notebook_is_left_alone false cell_ipynb [a1_ipynb]
           sample_world nb_cell_state nb_cell_state); reflexivity.
Defined.

Lemma changed_notebook_backup_then_write_a1 :
  (suffix a1_ipynb = ".ipynb"
   /\ files sample_world !! a1_ipynb = Some "nb_a1"
   /\ snd (read_notebook a1_ipynb sample_world) = Ok nb_a1
   /\ fix_widgets_metadata false nb_a1
      = (fst (fix_widgets_metadata false nb_a1), Ok true))
  /\ backup_then_write false a1_ipynb [] sample_world "nb_a1"
       (fst (fix_widgets_metadata false nb_a1)).
Proof.
  split; [repeat split|].
  apply (changed_notebook_backup_then_write false a1_ipynb [] sample_world
           "nb_a1" nb_a1); reflexivity.
Defined.

(** * Further properties of the Metadata Fixer *)

(** ** The flag is exact *)

Lemma with_state_neq w : with_state w <> w.
Proof.
  intros H. apply (f_equal (@List.length _)) in H.
  unfold with_state in H. rewrite length_app in H. simpl in H. lia.
Qed.

(** Where [fix_location] sets the flag, the widgets entry is not what
    it was. *)
Lemma changes_widgets rm h :
  changes rm h = true ->
  widgets_of (fst (fix_location rm h)) <> widgets_of h.
Proof.
  destruct rm; intros Hc.
  - apply remove_changes in Hc as (Hok & w & Hw & Hnull).
    destruct (remove_deletes h w Hok Hw Hnull) as (m & Hm & Hm').
    rewrite (widgets_of_meta (fst (fix_location true h))), Hm', Hw.
    now rewrite DictFacts.get_del_eq.
  - apply insert_changes in Hc as (Hok & w & Hw & Hst).
    rewrite (insert_adds_state h w Hok Hw Hst), Hw.
    intros [= H]. now apply (with_state_neq w).
Qed.

(** The docstring's promise, lines 44-45: the value returned is True if
    any modification was made and False otherwise.  On every document
    (a well-shaped tree) and in both modes, fix returns False if and
    only if the tree after the call is the tree before it. *)
Theorem flag_is_exact (rm : bool) (doc : json) :
  well_shaped doc = true ->
  exists doc' changed,
    fix_widgets_metadata rm doc = (doc', Ok changed)
    /\ (changed = false <-> doc' = doc).
Proof.
  intros Hws.
  destruct (fix_flag rm doc Hws) as (doc' & changed & Hrun & Hflag).
  exists doc', changed. split; [assumption|]. split.
  - intros ->.
    assert (Hnothing : fix_widgets_metadata rm doc = (doc, Ok false)).
    { apply fix_nothing; [assumption|]. intros loc h Hh.
      destruct (changes rm h) eqn:Hc; [|reflexivity].
      assert (false = true) by (apply Hflag; eauto). discriminate. }
    rewrite Hnothing in Hrun. now injection Hrun as <-.
  - intros ->. destruct changed; [|reflexivity]. exfalso.
    destruct (proj1 Hflag eq_refl) as (loc & h & Hh & Hc).
    apply (changes_widgets rm h Hc).
    rewrite <- (fix_widgets_at rm doc loc h Hws Hh), Hrun. simpl.
    now rewrite widgets_at_holder, Hh.
Qed.

Lemma flag_is_exact_mixed :
  well_shaped nb_mixed = true
  /\ exists doc' changed,
       fix_widgets_metadata true nb_mixed = (doc', Ok changed)
       /\ (changed = false <-> doc' = nb_mixed).
Proof.
  split; [reflexivity|]. apply (flag_is_exact true nb_mixed). reflexivity.
Defined.

(** ** One run after another *)

Lemma after_loop_twice cells items items' :
  after_loop (after_loop cells items) items' = after_loop cells items'.
Proof. now destruct cells. Qed.

Lemma del_store key v d :
  Dict.del key (Dict.store key v d) = Dict.del key d.
Proof.
  induction d as [|[k u] d IH]; simpl; [reflexivity|].
  destruct (String.eqb k key) eqn:E; simpl; rewrite E; [reflexivity|].
  now rewrite IH.
Qed.

Lemma existsb_map {A B} (f : B -> bool) (g : A -> B) (l : list A) :
  existsb f (map g l) = existsb (fun x => f (g x)) l.
Proof. induction l as [|x l IH]; simpl; [reflexivity|now rewrite IH]. Qed.

Lemma existsb_ext_in {A} (f g : A -> bool) (l : list A) :
  (forall x, In x l -> f x = g x) -> existsb f l = existsb g l.
Proof.
  induction l as [|x l IH]; simpl; intros H; [reflexivity|].
  rewrite (H x) by now left. rewrite IH; [reflexivity|].
  intros y Hy. apply H. now right.
Qed.

(** A run in mode [rm2] on the tree a run in mode [rm1] left: each
    holder goes through [fix_location] in mode [rm1], then in mode
    [rm2]. *)
Lemma fix_then_fix rm1 rm2 d :
  well_shaped (JDict d) = true ->
  exists d1 d12 items,
    fst (fix_location rm1 (JDict d)) = JDict d1
    /\ fst (fix_location rm2 (JDict d1)) = JDict d12
    /\ py_iter (cells_of d) = Ok items
    /\ forallb meta_ok items = true
    /\ fix_widgets_metadata rm2 (fst (fix_widgets_metadata rm1 (JDict d)))
       = (JDict (Dict.store "cells"
                   (after_loop (cells_of d)
                      (map (fun c => fst (fix_location rm2
                                            (fst (fix_location rm1 c))))
                           items)) d12),
          Ok (changes rm2 (JDict d1)
              || existsb (changes rm2)
                   (map (fun c => fst (fix_location rm1 c)) items))).
Proof.
  intros Hws.
  pose proof (fix_well_shaped rm1 _ Hws) as Hws1.
  destruct (fix_run rm1 d Hws) as (d1 & items & Hrun1 & Hiter & Hok & Hfix1).
  pose proof (fix_location_cells _ _ _ _ Hrun1) as Hget.
  rewrite Hfix1 in Hws1 |- *. cbn [fst] in *.
  destruct (fix_run rm2 _ Hws1) as (d2 & items2 & Hrun2 & Hiter2 & Hok2 & ->).
  rewrite (cells_of_after rm1 d d1 items Hget Hiter) in *.
  rewrite (iter_after_loop rm1 _ _ Hiter Hok) in Hiter2.
  injection Hiter2 as <-.
  destruct (fix_location_dict rm2 d1) as [d12 Hrun12].
  pose proof (fix_location_frame rm2 "cells"
                (after_loop (cells_of d)
                   (map (fun c => fst (fix_location rm1 c)) items))
                d1 d12 _ ltac:(discriminate) Hrun12) as Hframe.
  assert (Hchanges :
            changes rm2
              (JDict (Dict.store "cells"
                        (after_loop (cells_of d)
                           (map (fun c => fst (fix_location rm1 c)) items)) d1))
            = changes rm2 (JDict d1)).
  { unfold changes. now rewrite Hframe, Hrun12. }
  rewrite Hframe in Hrun2. apply pair_equal_spec in Hrun2 as [Hd2 _].
  injection Hd2 as <-.
  exists d1, d12, items. rewrite Hrun1, Hrun12, Hchanges.
  repeat split; try assumption.
  now rewrite after_loop_twice, DictFacts.store_store, map_map.
Qed.

(** Removal after insertion, at one location, is removal. *)
Lemma remove_after_insert h :
  fst (fix_location true (fst (fix_location false h)))
  = fst (fix_location true h)
  /\ changes true (fst (fix_location false h)) = changes true h.
Proof.
  unfold changes, fix_location.
  destruct h as [| | | | | |hd]; simpl; try done.
  destruct (Dict.get "metadata" hd) as [[| | | | | |m]|] eqn:Hmeta; simpl;
    rewrite ?Hmeta; simpl; try done.
  destruct (Dict.get "widgets" m) as [[| | | | | |w]|] eqn:Hw; simpl;
    rewrite ?Hmeta; simpl; rewrite ?Hw; simpl; try done.
  destruct (Dict.mem "state" w) eqn:Hst; simpl;
    rewrite ?Hmeta; simpl; rewrite ?Hw; simpl; try done.
  rewrite (DictFacts.get_store_present _ _ _ _ Hmeta). simpl.
  rewrite (DictFacts.get_store_present _ _ _ _ Hw). simpl.
  now rewrite del_store, DictFacts.store_store.
Qed.

(** Insertion after removal, at one location, finds nothing to do. *)
Lemma insert_after_remove h :
  fst (fix_location false (fst (fix_location true h)))
  = fst (fix_location true h)
  /\ changes false (fst (fix_location true h)) = false.
Proof.
  unfold changes, fix_location.
  destruct h as [| | | | | |hd]; simpl; try done.
  destruct (Dict.get "metadata" hd) as [[| | | | | |m]|] eqn:Hmeta; simpl;
    rewrite ?Hmeta; simpl; try done.
  destruct (Dict.get "widgets" m) as [[| | | | | |w]|] eqn:Hw; simpl;
    rewrite ?Hmeta; simpl; rewrite ?Hw; simpl; try done;
    rewrite (DictFacts.get_store_present _ _ _ _ Hmeta); simpl;
    now rewrite DictFacts.get_del_eq.
Qed.

(** Lines 47-71, both modes in sequence: on every document (a
    well-shaped tree), removal mode run on the tree insert mode left
    gives the tree and the flag that removal mode gives on the original
    tree. *)
Theorem remove_after_insert_is_remove (doc : json) :
  well_shaped doc = true ->
  fix_widgets_metadata true (fst (fix_widgets_metadata false doc))
  = fix_widgets_metadata true doc.
Proof.
  intros Hws. destruct doc as [| | | | | |d]; try discriminate.
  destruct (fix_then_fix false true d Hws)
    as (d1 & d12 & items & Hd1 & Hd12 & Hiter & Hok & ->).
  destruct (fix_run true d Hws) as (dt & items' & Hrunt & Hiter' & _ & ->).
  rewrite Hiter in Hiter'. injection Hiter' as <-.
  destruct (remove_after_insert (JDict d)) as [Htree Hflag].
  rewrite Hd1, Hd12, Hrunt in Htree. simpl in Htree. injection Htree as ->.
  rewrite Hd1 in Hflag. rewrite Hflag.
  f_equal; [f_equal; f_equal; f_equal|f_equal; f_equal].
  - apply map_ext. intros c. apply remove_after_insert.
  - rewrite existsb_map. apply existsb_ext_in. intros c _.
    apply remove_after_insert.
Qed.

Lemma remove_after_insert_is_remove_mixed :
  well_shaped nb_mixed = true
  /\ fix_widgets_metadata true (fst (fix_widgets_metadata false nb_mixed))
     = fix_widgets_metadata true nb_mixed.
Proof.
  split; [reflexivity|]. apply remove_after_insert_is_remove. reflexivity.
Defined.

(** Lines 47-71, both modes in sequence: on every document (a
    well-shaped tree), insert mode run on the tree removal mode left
    changes nothing and returns False: what removal leaves, a widgets key
    bound to null at most, is nothing insert mode completes. *)
Theorem insert_after_remove_changes_nothing (doc : json) :
  well_shaped doc = true ->
  fix_widgets_metadata false (fst (fix_widgets_metadata true doc))
  = (fst (fix_widgets_metadata true doc), Ok false).
Proof.
  intros Hws. destruct doc as [| | | | | |d]; try discriminate.
  destruct (fix_then_fix true false d Hws)
    as (d1 & d12 & items & Hd1 & Hd12 & Hiter & Hok & ->).
  destruct (fix_run true d Hws) as (dt & items' & Hrunt & Hiter' & _ & ->).
  rewrite Hiter in Hiter'. injection Hiter' as <-.
  destruct (insert_after_remove (JDict d)) as [Htree Hflag].
  rewrite Hd1 in Htree, Hflag. rewrite Hd12 in Htree. injection Htree as ->.
  rewrite Hrunt in Hd1. cbn [fst] in Hd1. injection Hd1 as ->.
  rewrite Hflag. cbn [fst orb].
  f_equal; [f_equal; f_equal; f_equal|f_equal].
  - apply map_ext. intros c. apply insert_after_remove.
  - rewrite existsb_map.
    rewrite (existsb_ext_in _ (fun _ => false)).
    + clear. induction items; auto.
    + intros c _. apply insert_after_remove.
Qed.

Lemma insert_after_remove_changes_nothing_mixed :
  well_shaped nb_mixed = true
  /\ fix_widgets_metadata false (fst (fix_widgets_metadata true nb_mixed))
     = (fst (fix_widgets_metadata true nb_mixed), Ok false).
Proof.
  split; [reflexivity|]. apply insert_after_remove_changes_nothing. reflexivity.
Defined.

(** ** Removal mode only deletes widgets entries *)

Lemma pruned_entries_same d : Forall2 entry_prunes d d.
Proof. induction d; constructor; [split; [reflexivity|constructor]|assumption]. Qed.

Lemma pruned_entries_store key v' d d1 :
  Forall2 entry_prunes d d1 ->
  (forall v, Dict.get key d = Some v ->
             prunes (String.eqb key "metadata") v v') ->
  Forall2 entry_prunes d (Dict.store key v' d1).
Proof.
  intros Hd. induction Hd as [|[k v] [k1 v1] d d1 [Hk Hv] Hd IH]; intros Hkey;
    simpl in *; [constructor|]. subst k1.
  destruct (String.eqb k key) eqn:E.
  - apply String.eqb_eq in E. subst k.
    constructor; [|assumption]. split; [reflexivity|]. simpl. now apply Hkey.
  - constructor; [now split|]. apply IH. exact Hkey.
Qed.

Lemma prunes_weaken u v v' : prunes u v v' -> prunes true v v'.
Proof. intros H. inversion H; subst; now constructor. Qed.

Lemma fix_location_prunes h : prunes false h (fst (fix_location true h)).
Proof.
  location_cases true h; simpl; try apply prunes_same.
  apply prunes_dict, pruned_entries_store; [apply pruned_entries_same|].
  intros v Hv. rewrite Hmeta in Hv. injection Hv as <-.
  apply prunes_widgets.
Qed.

Lemma visited_prunes l l' : visited true l l' -> Forall2 (prunes false) l l'.
Proof.
  induction 1 as [|c c' l l' [->| ->] _ IH]; constructor; try assumption.
  - apply fix_location_prunes.
  - constructor.
Qed.

Lemma fix_prunes doc : prunes false doc (fst (fix_widgets_metadata true doc)).
Proof.
  destruct doc as [| | | | | |d]; try constructor.
  destruct (fix_any_run true d) as (d1 & cells' & Hd1 & -> & Hcells).
  pose proof (fix_location_prunes (JDict d)) as Hg. rewrite Hd1 in Hg.
  assert (Hent : Forall2 entry_prunes d d1).
  { inversion Hg; subst; [apply pruned_entries_same|assumption]. }
  apply prunes_dict, pruned_entries_store; [assumption|].
  intros c0 Hc0. simpl.
  destruct (Hcells _ Hc0) as [->|(l & l' & -> & -> & Hv)]; [constructor|].
  apply prunes_list. now apply visited_prunes.
Qed.

Lemma get_del_other key key' d :
  key <> key' -> Dict.get key' (Dict.del key d) = Dict.get key' d.
Proof.
  intros Hne. induction d as [|[k u] d IH]; simpl; [reflexivity|].
  destruct (String.eqb k key) eqn:E; simpl.
  - apply String.eqb_eq in E. subst k.
    now rewrite (DictFacts.eqb_key_neq _ _ Hne).
  - now rewrite IH.
Qed.

Lemma pruned_entries_get d d' key v :
  Forall2 entry_prunes d d' -> Dict.get key d = Some v ->
  exists v', Dict.get key d' = Some v' /\ prunes true v v'.
Proof.
  induction 1 as [|[k x] [k' x'] d d' [Hk Hx] _ IH]; simpl in *;
    [discriminate|]. subst k'.
  destruct (String.eqb k key).
  - intros [= <-]. exists x'. split; [reflexivity|].
    eapply prunes_weaken. eassumption.
  - exact IH.
Qed.

Lemma prunes_child u v v' s x :
  prunes u v v' -> child s v = Some x -> through_widgets [s] = false ->
  exists x', child s v' = Some x' /\ prunes true x x'.
Proof.
  intros Hg Hx Hs. inversion Hg; subst.
  - exists x. split; [assumption|constructor].
  - destruct s as [k|i]; simpl in *; [|discriminate].
    exists x. split; [|constructor].
    rewrite get_del_other; [assumption|].
    intros <-. now rewrite String.eqb_refl in Hs.
  - destruct s as [k|i]; simpl in *; [discriminate|].
    destruct (Forall2_lookup_l _ _ _ _ _ H Hx) as (x' & Hx' & Hgx).
    exists x'. split; [assumption|]. eapply prunes_weaken. eassumption.
  - destruct s as [k|i]; simpl in *; [|discriminate].
    eapply pruned_entries_get; eassumption.
Qed.

Lemma prunes_lookup p : forall u v v' x,
  prunes u v v' -> lookup_path p v = Some x -> through_widgets p = false ->
  exists x', lookup_path p v' = Some x' /\ prunes true x x'.
Proof.
  induction p as [|s p IH]; intros u v v' x Hg; simpl.
  - intros [= <-] _. exists v'. split; [reflexivity|].
    eapply prunes_weaken. eassumption.
  - destruct (child s v) as [y|] eqn:Hy; [|discriminate].
    intros Hx [Hs Hp]%orb_false_elim.
    destruct (prunes_child u v v' s y Hg Hy) as (y' & -> & Hgy).
    { simpl. now rewrite Hs. }
    exact (IH true y y' x Hgy Hx Hp).
Qed.

Lemma prunes_scalar u v v' : prunes u v v' -> is_container v = false -> v' = v.
Proof. intros H. inversion H; subst; simpl; congruence. Qed.

(** Lines 47-71 with [remove_widgets] set: removal mode deletes nothing
    but widgets entries of metadata mappings.  On every tree, whether
    fix returns or raises, the tree after the call is the tree before it
    with the "widgets" entry removed from some mappings stored under a
    "metadata" key; so whatever a path that goes through no "widgets" key
    reached before the call it still reaches after it, the same value for
    a scalar, and for a list or a mapping the same container, only
    pruned that way. *)
Theorem remove_mode_only_deletes_widgets (doc : json) :
  prunes false doc (fst (fix_widgets_metadata true doc))
  /\ (forall p v,
        lookup_path p doc = Some v -> through_widgets p = false ->
        exists v',
          lookup_path p (fst (fix_widgets_metadata true doc)) = Some v'
          /\ prunes true v v'
          /\ (is_container v = false -> v' = v)).
Proof.
  split; [apply fix_prunes|].
  intros p v Hv Hp.
  destruct (prunes_lookup p _ _ _ _ (fix_prunes doc) Hv Hp) as (v' & Hv' & Hg).
  exists v'. repeat split; try assumption.
  now apply (prunes_scalar true).
Qed.

Lemma remove_mode_only_deletes_widgets_mixed :
  (lookup_path [Key "metadata"; Key "kernelspec"] nb_mixed
   = Some (JStr "python3")
   /\ through_widgets [Key "metadata"; Key "kernelspec"] = false)
  /\ exists v',
       lookup_path [Key "metadata"; Key "kernelspec"]
                   (fst (fix_widgets_metadata true nb_mixed)) = Some v'
       /\ prunes true (JStr "python3") v'
       /\ (is_container (JStr "python3") = false -> v' = JStr "python3").
Proof.
  split; [split; reflexivity|].
  apply (proj2 (remove_mode_only_deletes_widgets nb_mixed)); reflexivity.
Defined.

(** ** A cell that fix refuses *)

Lemma fix_location_refuses rm h :
  meta_ok h = false -> exists e, fix_location rm h = (h, Raise e).
Proof.
  rewrite <- (fix_location_ok rm h).
  location_cases rm h; simpl; try discriminate; eauto.
Qed.

Lemma fix_cells_stops rm good bad rest changed e :
  forallb meta_ok good = true ->
  fix_location rm bad = (bad, Raise e) ->
  fix_cells rm (good ++ bad :: rest)%list changed
  = ((map (fun c => fst (fix_location rm c)) good ++ bad :: rest)%list,
     Raise e).
Proof.
  revert changed. induction good as [|c good IH]; intros changed; simpl.
  - intros _ ->. reflexivity.
  - intros [Hc Hgood]%andb_prop Hbad.
    rewrite <- (fix_location_ok rm c) in Hc.
    destruct (fix_location rm c) as [c' [b|e0]]; simpl in *; [|discriminate].
    now rewrite (IH _ Hgood Hbad).
Qed.

(** Lines 61-70: the loop stops at the first cell that is not a mapping
    with a mapping (or nothing) under "metadata".  The exception is the
    AttributeError of that cell; the document level and the cells before
    it keep the changes already made in place, that cell and the cells
    after it are as they were. *)
Theorem fix_stops_at_first_malformed_cell
    (rm : bool) (d : entries) (good : list json) (bad : json)
    (rest : list json) :
  meta_ok (JDict d) = true ->
  Dict.get "cells" d = Some (JList (good ++ bad :: rest)%list) ->
  forallb meta_ok good = true ->
  meta_ok bad = false ->
  exists d1 e,
    fst (fix_location rm (JDict d)) = JDict d1
    /\ fix_location rm bad = (bad, Raise e)
    /\ fix_widgets_metadata rm (JDict d)
       = (JDict (Dict.store "cells"
                   (JList (map (fun c => fst (fix_location rm c)) good
                           ++ bad :: rest)%list) d1),
          Raise e).
Proof.
  intros Hdoc Hcells Hgood Hbad.
  destruct (fix_location_refuses rm bad Hbad) as [e He].
  destruct (fix_location_dict rm d) as [d1 Hrun].
  pose proof (fix_location_cells _ _ _ _ Hrun) as Hget.
  rewrite <- (fix_location_ok rm) in Hdoc.
  exists d1, e. rewrite Hrun. repeat split; [exact He|].
  unfold fix_widgets_metadata. rewrite Hrun.
  destruct (snd (fix_location rm (JDict d))) as [c|e0]; [|discriminate].
  rewrite Hget, Hcells. simpl default. simpl py_iter. cbv iota.
  now rewrite (fix_cells_stops rm good bad rest c e Hgood He).
Qed.

Lemma fix_stops_at_first_malformed_cell_half :
  (meta_ok (JDict nb_half) = true
   /\ Dict.get "cells" nb_half
      = Some (JList ([JDict [("metadata", JDict [("widgets", JInt 5)])]]
                     ++ JInt 7
                     :: [JDict [("metadata", JDict [("widgets", JBool true)])]])%list)
   /\ forallb meta_ok [JDict [("metadata", JDict [("widgets", JInt 5)])]] = true
   /\ meta_ok (JInt 7) = false)
  /\ exists d1 e,
       fst (fix_location true (JDict nb_half)) = JDict d1
       /\ fix_location true (JInt 7) = (JInt 7, Raise e)
       /\ fix_widgets_metadata true (JDict nb_half)
          = (JDict (Dict.store "cells"
                      (JList (map (fun c => fst (fix_location true c))
                                  [JDict [("metadata",
                                           JDict [("widgets", JInt 5)])]]
                              ++ JInt 7
                              :: [JDict [("metadata",
                                          JDict [("widgets", JBool true)])]])%list)
                      d1),
             Raise e).
Proof.
  split; [repeat split|].
  apply (fix_stops_at_first_malformed_cell true nb_half
           [JDict [("metadata", JDict [("widgets", JInt 5)])]]
           (JInt 7)
           [JDict [("metadata", JDict [("widgets", JBool true)])]]);
    reflexivity.
Defined.

Example fix_remove_half :
  fix_widgets_metadata true (JDict nb_half)
  = (JDict [("metadata", JDict []);
            ("cells",
             JList [JDict [("metadata", JDict [])];
                    JInt 7;
                    JDict [("metadata", JDict [("widgets", JBool true)])]])],
     Raise (Exn "AttributeError" "'int' object has no attribute 'get'")).
Proof. reflexivity. Qed.

(** * Further properties of the Batch Processor *)

(** ** Which names are notebooks *)

Lemma rfind_dot_app s t :
  rfind_dot (s ++ t)
  = if (0 <=? rfind_dot t)%Z
    then (Z.of_nat (String.length s) + rfind_dot t)%Z
    else rfind_dot s.
Proof.
  induction s as [|c s IH].
  - simpl. destruct (0 <=? rfind_dot t)%Z eqn:E; [reflexivity|].
    apply Z.leb_gt in E. destruct t as [|a t]; [reflexivity|].
    simpl in *. destruct (0 <=? rfind_dot t)%Z eqn:E'; [apply Z.leb_le in E'; lia|].
    destruct (Ascii.eqb a "."); [lia|reflexivity].
  - change (rfind_dot (String c (s ++ t))
            = if (0 <=? rfind_dot t)%Z
              then (Z.of_nat (S (String.length s)) + rfind_dot t)%Z
              else rfind_dot (String c s)).
    simpl rfind_dot. rewrite IH.
    destruct (0 <=? rfind_dot t)%Z eqn:E; [|reflexivity].
    apply Z.leb_le in E.
    destruct (0 <=? Z.of_nat (String.length s) + rfind_dot t)%Z eqn:E';
      [lia|apply Z.leb_gt in E'; lia].
Qed.

Lemma str_drop_app s t : str_drop (String.length s) (s ++ t) = t.
Proof. induction s as [|c s IH]; [now destruct t|exact IH]. Qed.

Lemma rfind_dot_ext ext :
  rfind_dot ext = (-1)%Z -> rfind_dot (String "." ext) = 0%Z.
Proof. intros Hdot. simpl. now rewrite Hdot. Qed.

(** The suffix of a name that ends with a dot and a dotless, non-empty
    extension, after a non-empty stem. *)
Lemma suffix_of_stem_ext a ds stem ext :
  stem <> "" -> ext <> "" -> rfind_dot ext = (-1)%Z ->
  suffix (mkPath a ds (stem ++ String "." ext)) = String "." ext.
Proof.
  intros Hstem Hext Hdot. unfold suffix. cbn [name].
  rewrite rfind_dot_app, (rfind_dot_ext ext Hdot), length_append.
  change (0 <=? 0)%Z with true. cbv iota.
  change (String.length (String "." ext)) with (S (String.length ext)).
  assert (0 < String.length stem) by (destruct stem; [congruence|simpl; lia]).
  assert (0 < String.length ext) by (destruct ext; [congruence|simpl; lia]).
  replace ((0 <? Z.of_nat (String.length stem) + 0)%Z) with true
    by (symmetry; apply Z.ltb_lt; lia).
  replace ((Z.of_nat (String.length stem) + 0
            <? Z.of_nat (String.length stem + S (String.length ext)) - 1)%Z)
    with true by (symmetry; apply Z.ltb_lt; lia).
  cbn [andb]. rewrite Z.add_0_r, Nat2Z.id. apply str_drop_app.
Qed.

(** Line 76 with pathlib's [suffix]: a path passes the extension test
    exactly when its final component is a non-empty stem followed by
    [.ipynb]; a file named [.ipynb] alone does not. *)
Theorem notebook_extension_iff (p : Path) :
  suffix p = ".ipynb" <->
  exists stem, stem <> "" /\ name p = stem ++ ".ipynb".
Proof.
  split.
  - intros Hs. pose proof (suffix_split p) as Hsplit. rewrite Hs in Hsplit.
    specialize (Hsplit ltac:(discriminate)).
    exists (str_take (String.length (name p) - String.length ".ipynb") (name p)).
    split; [|exact Hsplit].
    intros Hempty. rewrite Hempty in Hsplit.
    unfold suffix in Hs. rewrite Hsplit in Hs. discriminate.
  - intros (stem & Hstem & Hname).
    destruct p as [a ds n]. cbn [name] in Hname. subst n.
    now apply (suffix_of_stem_ext a ds stem "ipynb").
Qed.

Section MoreBatchFacts.
Context `{PyLib}.

Lemma read_notebook_file p w nb_data :
  snd (read_notebook p w) = Ok nb_data ->
  exists original, files w !! p = Some original.
Proof.
  unfold read_notebook, read_text, mbind, IO_bind.
  destruct (files w !! p) as [bytes|]; [eauto|discriminate].
Qed.

Lemma process_notebook_outcome rm p w :
  notebook_outcome rm p w (process_notebook rm p w).
Proof.
  destruct (String.eqb (suffix p) ".ipynb") eqn:Hs.
  - apply String.eqb_eq in Hs.
    destruct (snd (read_notebook p w)) as [nb_data|exc] eqn:Hread.
    + rewrite (process_notebook_parsed rm p w nb_data Hs Hread).
      destruct (fix_widgets_metadata rm nb_data) as [nb_data' [[|]|e]] eqn:Hfix.
      * destruct (read_notebook_file p w nb_data Hread) as [original Hfile].
        destruct (backup_and_write_run p nb_data' w original Hs Hfile)
          as [_ ->].
        destruct (dumps 2 nb_data') as [text|e] eqn:Hdumps.
        -- eapply outcome_rewritten; eassumption.
        -- eapply outcome_dumps_raised; eassumption.
      * eapply outcome_unchanged; eassumption.
      * eapply outcome_fix_raised; eassumption.
    + replace (process_notebook rm p w)
        with (printed (error_line p exc) w, Ok tt);
        [now apply outcome_reported|].
      unfold process_notebook. rewrite Hs. simpl.
      unfold mbind at 1, IO_bind at 1, try_except.
      unfold mbind at 1, IO_bind at 1.
      rewrite (read_notebook_result p w), Hread. reflexivity.
  - apply String.eqb_neq in Hs.
    unfold process_notebook.
    rewrite (proj2 (String.eqb_neq _ _) Hs). simpl.
    now apply outcome_skipped.
Qed.

Lemma process_notebooks_unfold rm p rest w :
  process_notebooks (p :: rest) rm w
  = match process_notebook rm p w with
    | (w', Ok _) => process_notebooks rest rm w'
    | (w', Raise e) => (w', Raise e)
    end.
Proof. reflexivity. Qed.

(** ** A notebook that fix refuses *)

(** Line 84 is outside the [try]: for a path with the notebook extension
    whose content parses to a tree that is not well shaped (a list, a
    document whose metadata is not a mapping, a cell that is not a
    mapping), the exception of fix leaves the loop.  The batch ends there
    with that AttributeError or TypeError: nothing is printed, no file is
    touched, and the paths after it are not processed. *)
Theorem malformed_notebook_ends_batch
    (rm : bool) (p : Path) (rest : list Path) (w : World) (nb_data : json) :
  suffix p = ".ipynb" ->
  snd (read_notebook p w) = Ok nb_data ->
  well_shaped nb_data = false ->
  exists e,
    process_notebooks (p :: rest) rm w = (w, Raise e)
    /\ is_shape_error e = true.
Proof.
  intros Hs Hread Hws.
  rewrite <- (fix_ok rm nb_data) in Hws.
  pose proof (fix_shape_error rm nb_data) as Hcls.
  rewrite process_notebooks_unfold.
  rewrite (process_notebook_parsed rm p w nb_data Hs Hread).
  destruct (fix_widgets_metadata rm nb_data) as [nb_data' [c|e]];
    [discriminate|].
  exists e. split; [reflexivity|]. now apply Hcls.
Qed.

(** ** What a batch leaves alone *)

Lemma process_notebook_frame rm p w q :
  q <> p -> q <> backup_of p ->
  files (fst (process_notebook rm p w)) !! q = files w !! q.
Proof.
  intros Hp Hbak.
  destruct (process_notebook_outcome rm p w); simpl; try reflexivity.
  - rewrite lookup_insert_ne by congruence. now apply lookup_delete_ne.
  - rewrite !lookup_insert_ne by congruence. now apply lookup_delete_ne.
Qed.

Lemma process_notebook_stdout rm p w :
  stdout w `prefix_of` stdout (fst (process_notebook rm p w)).
Proof.
  destruct (process_notebook_outcome rm p w); simpl;
    solve [reflexivity | now apply prefix_app_r].
Qed.

(** Lines 74-90: whatever happens in a batch, also when it ends with an
    exception, a file that is neither a path of the batch nor the backup
    path of one holds the bytes it held, and the lines printed before the
    batch are still the first lines of the output. *)
Theorem batch_touches_only_its_paths
    (paths : list Path) (rm : bool) (w : World) (q : Path) :
  (forall p, In p paths -> q <> p /\ q <> backup_of p) ->
  files (fst (process_notebooks paths rm w)) !! q = files w !! q
  /\ stdout w `prefix_of` stdout (fst (process_notebooks paths rm w)).
Proof.
  revert w. induction paths as [|p paths IH]; intros w Hq.
  - split; reflexivity.
  - rewrite process_notebooks_unfold.
    destruct (Hq p ltac:(now left)) as [Hp Hbak].
    pose proof (process_notebook_frame rm p w q Hp Hbak) as Hframe.
    pose proof (process_notebook_stdout rm p w) as Hout.
    destruct (process_notebook rm p w) as [w' [[]|e]]; simpl in *.
    + destruct (IH w') as [Hfiles Hlines].
      { intros p' Hp'. apply Hq. now right. }
      split; [congruence|]. etransitivity; eassumption.
    + now split.
Qed.

(** ** Paths without the notebook extension *)

Lemma process_notebooks_skips paths rm w :
  (forall p, In p paths -> suffix p <> ".ipynb") ->
  process_notebooks paths rm w = (w, Ok tt).
Proof.
  induction paths as [|p paths IH]; intros Hpaths; [reflexivity|].
  rewrite process_notebooks_unfold.
  unfold process_notebook at 1.
  rewrite (proj2 (String.eqb_neq _ _) (Hpaths p ltac:(now left))).
  apply IH. intros p' Hp'. apply Hpaths. now right.
Qed.

(** Lines 75-77: a batch in which no path has the notebook extension,
    the empty batch among them, returns normally and leaves the world as
    it is; no file is read, so it does not matter whether the paths
    exist. *)
Theorem batch_without_notebooks_does_nothing
    (paths : list Path) (rm : bool) (w : World) :
  (forall p, In p paths -> suffix p <> ".ipynb") ->
  process_notebooks paths rm w = (w, Ok tt).
Proof.
  induction paths as [|p paths IH]; intros Hpaths; [reflexivity|].
  rewrite process_notebooks_unfold.
  assert (Hstep : process_notebook rm p w = (w, Ok tt)).
  { unfold process_notebook.
    rewrite (proj2 (String.eqb_neq _ _) (Hpaths p ltac:(now left))).
    reflexivity. }
  rewrite Hstep. apply IH. intros p' Hp'. apply Hpaths. now right.
Qed.

(** ** Batches in sequence *)

(** Lines 74-90: processing the paths of two lists as one batch is
    processing the first list and then, when that returned normally, the
    second list in the world the first left; an exception in the first
    list ends the whole batch. *)
Theorem batch_of_two_lists
    (l1 l2 : list Path) (rm : bool) (w : World) :
  process_notebooks (l1 ++ l2) rm w
  = match process_notebooks l1 rm w with
    | (w', Ok _) => process_notebooks l2 rm w'
    | (w', Raise e) => (w', Raise e)
    end.
Proof.
  revert w. induction l1 as [|p l1 IH]; intros w; [reflexivity|].
  simpl app. rewrite !process_notebooks_unfold.
  destruct (process_notebook rm p w) as [w' [[]|e]]; [apply IH|reflexivity].
Qed.

(** ** No file disappears *)

Lemma process_notebook_keeps_files rm p w w' q :
  process_notebook rm p w = (w', Ok tt) ->
  is_Some (files w !! q) -> is_Some (files w' !! q).
Proof.
  intros Hrun Hq.
  pose proof (process_notebook_outcome rm p w) as Hout. rewrite Hrun in Hout.
  inversion Hout; subst; simpl; try assumption.
  destruct (decide (q = p)) as [->|Hp]; [rewrite lookup_insert_eq; eauto|].
  rewrite lookup_insert_ne by congruence.
  destruct (decide (q = backup_of p)) as [->|Hbak];
    [rewrite lookup_insert_eq; eauto|].
  rewrite lookup_insert_ne by congruence. now rewrite lookup_delete_ne.
Qed.

(** Lines 74-90: a batch that returns normally removes no file: every
    path that held a file before the batch holds one after it. *)
Theorem batch_keeps_every_file
    (paths : list Path) (rm : bool) (w w' : World) (q : Path) :
  process_notebooks paths rm w = (w', Ok tt) ->
  is_Some (files w !! q) -> is_Some (files w' !! q).
Proof.
  revert w. induction paths as [|p paths IH]; intros w.
  - now intros [= <-].
  - rewrite process_notebooks_unfold.
    destruct (process_notebook rm p w) as [w1 [[]|e]] eqn:Hstep;
      [|discriminate].
    intros Hrest Hq. apply (IH w1 Hrest).
    eapply process_notebook_keeps_files; eassumption.
Qed.

(** ** Backups are not notebooks *)

(** Lines 76 and 86: the backup path of a notebook has the suffix [.bak],
    so a backup met in a later batch is skipped like any other file: it
    is never read, rewritten or backed up itself. *)
Theorem backup_is_not_a_notebook
    (p : Path) (rest : list Path) (rm : bool) (w : World) :
  suffix p = ".ipynb" ->
  suffix (backup_of p) = ".bak"
  /\ process_notebooks (backup_of p :: rest) rm w
     = process_notebooks rest rm w.
Proof.
  intros Hs.
  assert (Hbak : suffix (backup_of p) = ".bak").
  { unfold backup_of. apply (suffix_of_stem_ext _ _ (name p) "bak");
      try discriminate; [|reflexivity].
    intros Hname. unfold suffix in Hs. rewrite Hname in Hs. discriminate. }
  split; [exact Hbak|].
  rewrite process_notebooks_unfold.
  unfold process_notebook. rewrite Hbak. reflexivity.
Qed.

(** ** A second pass over a fixed notebook *)

(** A tree that fix returned is one it leaves alone. *)
Lemma fix_result_is_stable rm doc doc' changed :
  fix_widgets_metadata rm doc = (doc', Ok changed) ->
  fix_widgets_metadata rm doc' = (doc', Ok false).
Proof.
  intros Hrun.
  assert (Hws : well_shaped doc = true).
  { rewrite <- (fix_ok rm doc), Hrun. reflexivity. }
  assert (Hdoc' : doc' = fst (fix_widgets_metadata rm doc)) by now rewrite Hrun.
  subst doc'. apply fix_nothing.
  - now apply fix_well_shaped.
  - intros loc h' Hh'. eapply fix_holders_quiet; eassumption.
Qed.

(** Lines 74-90, twice: when the text written for a fixed notebook reads
    back as the tree it was made from (the codec and [json] round trip
    on it), processing the same path again in the world the first pass
    left changes nothing: no line is printed, the notebook is not
    rewritten, and the backup still holds the original bytes. *)
Theorem second_pass_does_nothing
    (rm : bool) (p : Path) (w : World)
    (original text : string) (nb_data nb_data' : json) :
  suffix p = ".ipynb" ->
  files w !! p = Some original ->
  snd (read_notebook p w) = Ok nb_data ->
  fix_widgets_metadata rm nb_data = (nb_data', Ok true) ->
  dumps 2 nb_data' = Ok text ->
  decode_utf8 (encode_utf8 text) = Ok text ->
  loads text = Ok nb_data' ->
  exists w2,
    process_notebook rm p w = (w2, Ok tt)
    /\ process_notebook rm p w2 = (w2, Ok tt)
    /\ files w2 !! backup_of p = Some original.
Proof.
  intros Hs Hfile Hread Hfix Hdumps Hcodec Hloads.
  exists (printed (fixed_line p)
            (written p (encode_utf8 text) (renamed p original w))).
  split; [|split].
  - rewrite (process_notebook_parsed rm p w nb_data Hs Hread), Hfix.
    destruct (backup_and_write_run p nb_data' w original Hs Hfile) as [_ ->].
    now rewrite Hdumps.
  - rewrite (process_notebook_parsed rm p _ nb_data' Hs).
    + now rewrite (fix_result_is_stable rm nb_data nb_data' true Hfix).
    + unfold read_notebook, read_text, mbind, IO_bind, lift. simpl.
      rewrite lookup_insert_eq. now rewrite Hcodec.
  - simpl. rewrite lookup_insert_ne by apply not_eq_sym, backup_of_neq.
    apply lookup_insert_eq.
Qed.

End MoreBatchFacts.

Section DriverFacts.
Context {lib : PyLib} {fsys : PyFS}.

Lemma main_loop_unfold p rest recursive rm w :
  main_loop (p :: rest) recursive rm w
  = match main_path recursive rm p w with
    | (w', Ok _) => main_loop rest recursive rm w'
    | (w', Raise e) => (w', Raise e)
    end.
Proof. reflexivity. Qed.

Lemma forallb_not_notebook l :
  forallb (fun q => negb (String.eqb (suffix q) ".ipynb")) l = true ->
  forall q, In q l -> suffix q <> ".ipynb".
Proof.
  intros Hall q Hq. rewrite forallb_forall in Hall.
  specialize (Hall q Hq). apply negb_true_iff in Hall.
  now apply String.eqb_neq.
Qed.

Lemma main_path_nowhere recursive rm p w :
  leads_nowhere recursive (files w) p = true ->
  main_path recursive rm p w
  = (mkWorld (files w) (stdout w ++ lines_for recursive (files w) p), Ok tt).
Proof.
  unfold leads_nowhere, lines_for, main_path.
  destruct (is_file (files w) p).
  - intros Hs. rewrite (@process_notebooks_skips lib).
    + rewrite app_nil_r. now destruct w.
    + intros q [<-|[]]. apply negb_true_iff in Hs. now apply String.eqb_neq.
  - destruct (is_dir (files w) p); [|reflexivity].
    intros Hall. unfold mbind, IO_bind, iterate_notebooks.
    pose proof (forallb_not_notebook _ Hall) as Hnone.
    destruct (if recursive then rglob (files w) p "*.ipynb"
              else glob (files w) p "*.ipynb") as [|q l] eqn:Hl.
    + reflexivity.
    + unfold mret, IO_ret.
      rewrite (@process_notebooks_skips lib (q :: l) rm w Hnone).
      rewrite app_nil_r. now destruct w.
Qed.

(** Lines 120-130 with 75-77: when no argument leads to a notebook
    (each is a file without the notebook extension, a directory in which
    the search finds no path with it, or a path that is neither a file
    nor a directory), [main] returns normally and changes no file; it
    prints, in the order of the arguments, one line for each missing
    path and one for each directory in which the search found nothing,
    and nothing for the files. *)
Theorem main_without_notebooks
    (paths : list Path) (recursive rm : bool) (w : World) :
  (forall p, In p paths -> leads_nowhere recursive (files w) p = true) ->
  main_loop paths recursive rm w
  = (mkWorld (files w)
             (stdout w ++ flat_map (lines_for recursive (files w)) paths),
     Ok tt).
Proof.
  revert w. induction paths as [|p paths IH]; intros w Hpaths.
  - simpl. rewrite app_nil_r. now destruct w.
  - rewrite main_loop_unfold.
    rewrite (main_path_nowhere recursive rm p w) by (apply Hpaths; now left).
    rewrite IH; simpl.
    + now rewrite <- app_assoc.
    + intros q Hq. apply Hpaths. now right.
Qed.

(** Lines 120-123: when every argument is an existing file, [main] is
    one batch over the arguments in their order, whatever the recursion
    flag: each file is processed in the world the files before it left,
    and an exception ends the run. *)
Theorem main_on_files_is_one_batch
    (paths : list Path) (recursive rm : bool) (w : World) :
  (forall p, In p paths -> is_file (files w) p = true) ->
  main_loop paths recursive rm w = process_notebooks paths rm w.
Proof.
  revert w. induction paths as [|p paths IH]; intros w Hpaths; [reflexivity|].
  rewrite main_loop_unfold, (@process_notebooks_unfold lib).
  unfold main_path at 1. rewrite (Hpaths p) by now left.
  rewrite (@process_notebooks_unfold lib rm p []).
  destruct (process_notebook rm p w) as [w' [[]|e]] eqn:Hstep; [|reflexivity].
  simpl. apply IH. intros q Hq.
  specialize (Hpaths q ltac:(now right)).
  unfold is_file in *. apply bool_decide_eq_true.
  apply bool_decide_eq_true in Hpaths.
  eapply (@process_notebook_keeps_files lib); eassumption.
Qed.

End DriverFacts.

(** ** The further properties on the samples *)

Lemma malformed_notebook_ends_batch_int_cell :
  (suffix int_cell_ipynb = ".ipynb"
   /\ snd (@read_notebook roundtrip_lib int_cell_ipynb second_world)
      = Ok nb_int_cell
   /\ well_shaped nb_int_cell = false)
  /\ exists e,
       @process_notebooks roundtrip_lib [int_cell_ipynb; a1_ipynb] false
                          second_world
       = (second_world, Raise e)
       /\ is_shape_error e = true.
Proof.
  split; [repeat split|].
  apply (@malformed_notebook_ends_batch roundtrip_lib false int_cell_ipynb
           [a1_ipynb] second_world nb_int_cell); reflexivity.
Defined.

Lemma cell_ipynb_is_outside_a1 p :
  In p [a1_ipynb] -> cell_ipynb <> p /\ cell_ipynb <> backup_of p.
Proof. intros [<-|[]]. split; discriminate. Qed.

Lemma batch_touches_only_its_paths_a1 :
  (forall p, In p [a1_ipynb] -> cell_ipynb <> p /\ cell_ipynb <> backup_of p)
  /\ files (fst (process_notebooks [a1_ipynb] false sample_world)) !! cell_ipynb
     = files sample_world !! cell_ipynb
  /\ stdout sample_world
     `prefix_of` stdout (fst (process_notebooks [a1_ipynb] false sample_world)).
Proof.
  split; [exact cell_ipynb_is_outside_a1|].
  apply (batch_touches_only_its_paths [a1_ipynb] false sample_world cell_ipynb).
  exact cell_ipynb_is_outside_a1.
Defined.

Lemma notes_and_backup_are_not_notebooks p :
  In p [notes_txt; backup_of a1_ipynb] -> suffix p <> ".ipynb".
Proof. intros [<-|[<-|[]]]; discriminate. Qed.

Lemma batch_without_notebooks_does_nothing_notes :
  (forall p, In p [notes_txt; backup_of a1_ipynb] -> suffix p <> ".ipynb")
  /\ process_notebooks [notes_txt; backup_of a1_ipynb] true sample_world
     = (sample_world, Ok tt).
Proof.
  split; [exact notes_and_backup_are_not_notebooks|].
  apply batch_without_notebooks_does_nothing.
  exact notes_and_backup_are_not_notebooks.
Defined.

Lemma batch_keeps_every_file_a1 :
  (process_notebooks [broken_ipynb; a1_ipynb] false sample_world
   = (fst (process_notebooks [broken_ipynb; a1_ipynb] false sample_world),
      Ok tt)
   /\ is_Some (files sample_world !! a1_ipynb))
  /\ is_Some (files (fst (process_notebooks [broken_ipynb; a1_ipynb] false
                                            sample_world)) !! a1_ipynb).
Proof.
  assert (Hsnd : snd (process_notebooks [broken_ipynb; a1_ipynb] false
                                        sample_world) = Ok tt)
    by (vm_compute; reflexivity).
  assert (Hrun : process_notebooks [broken_ipynb; a1_ipynb] false sample_world
                 = (fst (process_notebooks [broken_ipynb; a1_ipynb] false
                                           sample_world), Ok tt)).
  { rewrite <- Hsnd. apply surjective_pairing. }
  assert (Hfile : is_Some (files sample_world !! a1_ipynb))
    by (eexists; reflexivity).
  split; [now split|].
  exact (batch_keeps_every_file [broken_ipynb; a1_ipynb] false sample_world _
           a1_ipynb Hrun Hfile).
Defined.

Lemma backup_is_not_a_notebook_a1 :
  suffix a1_ipynb = ".ipynb"
  /\ suffix (backup_of a1_ipynb) = ".bak"
  /\ process_notebooks [backup_of a1_ipynb; a1_ipynb] false sample_world
     = process_notebooks [a1_ipynb] false sample_world.
Proof.
  split; [reflexivity|].
  apply (backup_is_not_a_notebook a1_ipynb [a1_ipynb] false sample_world).
  reflexivity.
Defined.

Lemma second_pass_does_nothing_a1 :
  (suffix a1_ipynb = ".ipynb"
   /\ files second_world !! a1_ipynb = Some "nb_a1"
   /\ snd (@read_notebook roundtrip_lib a1_ipynb second_world) = Ok nb_a1
   /\ fix_widgets_metadata false nb_a1
      = (fst (fix_widgets_metadata false nb_a1), Ok true)
   /\ @dumps roundtrip_lib 2 (fst (fix_widgets_metadata false nb_a1))
      = Ok "nb_a1 fixed"
   /\ @decode_utf8 roundtrip_lib (@encode_utf8 roundtrip_lib "nb_a1 fixed")
      = Ok "nb_a1 fixed"
   /\ @loads roundtrip_lib "nb_a1 fixed"
      = Ok (fst (fix_widgets_metadata false nb_a1)))
  /\ exists w2,
       @process_notebook roundtrip_lib false a1_ipynb second_world = (w2, Ok tt)
       /\ @process_notebook roundtrip_lib false a1_ipynb w2 = (w2, Ok tt)
       /\ files w2 !! backup_of a1_ipynb = Some "nb_a1".
Proof.
  split; [repeat split|].
  apply (@second_pass_does_nothing roundtrip_lib false a1_ipynb second_world
           "nb_a1" "nb_a1 fixed" nb_a1 (fst (fix_widgets_metadata false nb_a1)));
    reflexivity.
Defined.

Lemma arguments_lead_nowhere p :
  In p [missing_ipynb; notes_txt; empty_dir] ->
  @leads_nowhere sample_fs true (files sample_world) p = true.
Proof. intros [<-|[<-|[<-|[]]]]; reflexivity. Qed.

Lemma main_without_notebooks_sample :
  (forall p, In p [missing_ipynb; notes_txt; empty_dir] ->
             @leads_nowhere sample_fs true (files sample_world) p = true)
  /\ @main_loop sample_lib sample_fs [missing_ipynb; notes_txt; empty_dir]
                true false sample_world
     = (mkWorld (files sample_world)
                ["Path not found: missing.ipynb";
                 "No notebooks found in directory empty"],
        Ok tt).
Proof.
  split; [exact arguments_lead_nowhere|].
  apply (@main_without_notebooks sample_lib sample_fs
           [missing_ipynb; notes_txt; empty_dir] true false sample_world).
  exact arguments_lead_nowhere.
Defined.

Lemma arguments_are_files p :
  In p [cell_ipynb; notes_txt; a1_ipynb] ->
  is_file (files sample_world) p = true.
Proof. intros [<-|[<-|[<-|[]]]]; reflexivity. Qed.

Lemma main_on_files_is_one_batch_sample :
  (forall p, In p [cell_ipynb; notes_txt; a1_ipynb] ->
             is_file (files sample_world) p = true)
  /\ @main_loop sample_lib sample_fs [cell_ipynb; notes_txt; a1_ipynb]
                true false sample_world
     = process_notebooks [cell_ipynb; notes_txt; a1_ipynb] false sample_world.
Proof.
  split; [exact arguments_are_files|].
  apply (@main_on_files_is_one_batch sample_lib sample_fs).
  exact arguments_are_files.
Defined.

Lemma notebook_extension_iff_a1 :
  suffix a1_ipynb = ".ipynb"
  /\ exists stem, stem <> "" /\ name a1_ipynb = stem ++ ".ipynb".
Proof.
  split; [reflexivity|].
  apply (proj1 (notebook_extension_iff a1_ipynb)). reflexivity.
Defined.
